(** * Document ingestion and classification: a shallow embedding

    The development follows the Python sources:
    - [orchestrator_service.py]: the MIME-based classifier
      [get_generic_doc_type];
    - [receiver_service.py]: the blob-name classifier and the ingestion
      run [ReceiverService.process_session_documents];
    - [extractor_service.py]: the extraction strategies, the extraction
      run [ExtractorService.process_session_documents] and [main];
    - [models.py]: the [Document] row.

    Python [str] values are Rocq [string]s, one [ascii] per code point, so
    the model covers text over U+0000..U+00FF; [lower] and [isspace] are
    Python's on that range.  Exceptions are values of [exn] returned in a
    [result]; the database table, the staging directory and the blob
    container are explicit state. *)

From stdpp Require Import gmap strings list pretty.
From Stdlib Require Import ZArith Ascii String Lia.

Open Scope string_scope.

(** ** Python strings *)

Module PyStr.

(** [bool(s)] for a string: non-empty. *)
Definition truthy (s : string) : bool :=
  match s with
  | EmptyString => false
  | String _ _ => true
  end.

(** [str.lower] on one code point below U+0100: A-Z and the Latin-1
    capitals U+00C0..U+00DE (the multiplication sign U+00D7 apart) move up
    by 32, everything else stays. *)
Definition lower_char (c : ascii) : ascii :=
  let n := N_of_ascii c in
  if (((65 <=? n) && (n <=? 90)) ||
      ((192 <=? n) && (n <=? 222) && negb (n =? 215)))%N
  then ascii_of_N (n + 32)
  else c.

Fixpoint lower (s : string) : string :=
  match s with
  | EmptyString => EmptyString
  | String c r => String (lower_char c) (lower r)
  end.

(** [str.isspace] on one code point below U+0100. *)
Definition is_space (c : ascii) : bool :=
  let n := N_of_ascii c in
  (((9 <=? n) && (n <=? 13)) || ((28 <=? n) && (n <=? 32)) ||
   (n =? 133) || (n =? 160))%N.

(** [s.startswith(p)]. *)
Fixpoint startswith (s p : string) {struct p} : bool :=
  match p with
  | EmptyString => true
  | String a p' =>
      match s with
      | EmptyString => false
      | String b s' => Ascii.eqb a b && startswith s' p'
      end
  end.

(** [sub in s]. *)
Fixpoint contains (sub s : string) : bool :=
  startswith s sub ||
  match s with
  | EmptyString => false
  | String _ r => contains sub r
  end.

(** [s.rfind(c)] for a one-character [c]: the last index, or -1. *)
Fixpoint rfind_from (s : string) (c : ascii) (i last : Z) : Z :=
  match s with
  | EmptyString => last
  | String d r => rfind_from r c (i + 1) (if Ascii.eqb d c then i else last)
  end.

Definition rfind (s : string) (c : ascii) : Z := rfind_from s c 0 (-1).

(** [s[:n]] and [s[n:]] for [n >= 0]. *)
Fixpoint take (n : nat) (s : string) : string :=
  match n, s with
  | S k, String c r => String c (take k r)
  | _, _ => EmptyString
  end.

Fixpoint drop (n : nat) (s : string) : string :=
  match n, s with
  | S k, String _ r => drop k r
  | _, _ => s
  end.

(** [s[i:i+1]] for [i >= 0]. *)
Definition slice1 (s : string) (i : Z) : string := take 1 (drop (Z.to_nat i) s).

(** [s.lstrip()], [s.rstrip()], [s.strip()]. *)
Fixpoint lstrip (s : string) : string :=
  match s with
  | EmptyString => EmptyString
  | String c r => if is_space c then lstrip r else s
  end.

Fixpoint rstrip (s : string) : string :=
  match s with
  | EmptyString => EmptyString
  | String c r =>
      let r' := rstrip r in
      if is_space c && negb (truthy r') then EmptyString else String c r'
  end.

(** Both ends are stripped. *)
Definition strip (s : string) : string := lstrip (rstrip s).

(** [sep.join(l)]. *)
Fixpoint join (sep : string) (l : list string) : string :=
  match l with
  | [] => ""
  | [x] => x
  | x :: r => x ++ sep ++ join sep r
  end.

End PyStr.

(** ** [os.path] *)

(** The sources call [os.path.splitext] and [os.path.basename]; which module
    [os.path] is depends on the platform. *)
Inductive os_path := posixpath | ntpath.

Module OsPath.
Import PyStr.

(** The skip-leading-dots loop of [genericpath._splitext]: [n] is the number
    of iterations left, [dotIndex - filenameIndex]. *)
Fixpoint _splitext_loop (n : nat) (p : string) (filenameIndex dotIndex : Z)
  : string * string :=
  match n with
  | O => (p, "")
  | S k =>
      if negb (String.eqb (slice1 p filenameIndex) ".")
      then (take (Z.to_nat dotIndex) p, drop (Z.to_nat dotIndex) p)
      else _splitext_loop k p (filenameIndex + 1) dotIndex
  end.

Definition _splitext (p : string) (sep : ascii) (altsep : option ascii)
  : string * string :=
  let sepIndex := rfind p sep in
  let sepIndex :=
    match altsep with
    | Some a => Z.max sepIndex (rfind p a)
    | None => sepIndex
    end in
  let dotIndex := rfind p "."%char in
  if (dotIndex >? sepIndex)%Z
  then _splitext_loop (Z.to_nat (dotIndex - (sepIndex + 1))) p (sepIndex + 1) dotIndex
  else (p, "").

Definition splitext (os : os_path) (p : string) : string * string :=
  match os with
  | posixpath => _splitext p "/"%char None
  | ntpath => _splitext p "\"%char (Some "/"%char)
  end.

(** [posixpath.basename]: what follows the last slash. *)
Definition posix_basename (p : string) : string :=
  drop (Z.to_nat (rfind p "/"%char + 1)) p.

End OsPath.

(** ** Exceptions, results, and the external world *)

(** A raised Python exception, kept as its message [str(e)]. *)
Inductive exn := Exception (msg : string).

Definition str_exn (e : exn) : string := let 'Exception m := e in m.

Inductive result (A : Type) :=
| Ok (a : A)
| Raise (e : exn).
Arguments Ok {A} a.
Arguments Raise {A} e.

Definition is_ok {A} (r : result A) : bool :=
  match r with
  | Ok _ => true
  | Raise _ => false
  end.

(** What the libraries report on a file's contents: the file's bytes are
    not modelled, the outcome of each reader on them is.
    - [text_mode]: [open(path, "r").read()];
    - [pdf]: [PyPDF2.PdfReader(file, strict=False)] with its page list, and
      for each page [pages[i].extract_text()];
    - [docx]: [docx.Document(path)] and the text of its paragraphs;
    - [ocr]: [pytesseract.image_to_string(Image.open(path))]. *)
Record file := File {
  text_mode : result string;
  pdf : result (list (result string));
  docx : result (list string);
  ocr : result string;
}.

(** The file left by [open(path, "wb")] before anything is written. *)
Definition empty_file : file :=
  {| text_mode := Ok "";
     pdf := Raise (Exception "Cannot read an empty file");
     docx := Raise (Exception "Package not found");
     ocr := Raise (Exception "cannot identify image file") |}.

(** A row of the [documents] table (models.py).  [updated_at] has no
    default and [onupdate=func.now()]: the code never assigns it, the
    database sets it when it updates the row. *)
Record Document := {
  doc_id : string;
  doc_name : string;
  doc_type : option string;
  status : option string;
  azure_blob_url : option string;
  created_at : option Z;
  updated_at : option Z;
  session_id : string;
  extracted_text : option string;
  entity_list : option string;
}.

Definition nl : string := String (ascii_of_nat 10) "".

(** ** orchestrator_service.py *)

Module Orchestrator.
Import PyStr OsPath.

Definition extension_mapping : gmap string string :=
  list_to_map
    [ (".pdf", "PDF"); (".doc", "WORD"); (".docx", "WORD"); (".txt", "TEXT");
      (".jpg", "IMAGE"); (".jpeg", "IMAGE"); (".png", "IMAGE");
      (".gif", "IMAGE"); (".jfif", "IMAGE"); (".eml", "EMAIL") ].

Definition get_generic_doc_type (os : os_path)
    (mime_type filename : option string) : string :=
  let mime_type :=
    match mime_type with
    | Some m => if truthy m then lower m else ""
    | None => ""
    end in
  if String.eqb mime_type "email" ||
     match filename with
     | Some f => truthy f && startswith f "Email_"
     | None => false
     end
  then "EMAIL"
  else if contains "pdf" mime_type then "PDF"
  else if existsb (fun word_type => contains word_type mime_type)
            ["word"; "wordprocessing"; "msword";
             "openxmlformats-officedocument.wordprocessingml"]
  then "WORD"
  else if existsb (fun img_type => contains img_type mime_type)
            ["image/"; "jpeg"; "jpg"; "png"; "gif"; "bmp"; "tiff"]
  then "IMAGE"
  else if contains "text/" mime_type || String.eqb mime_type "application/txt"
  then "TEXT"
  else
    match filename with
    | Some f =>
        if truthy f &&
           (String.eqb mime_type "application/octet-stream" ||
            negb (truthy mime_type))
        then
          let ext := snd (splitext os (lower f)) in
          default "OTHER" (extension_mapping !! ext)
        else "OTHER"
    | None => "OTHER"
    end.

(** The filename test of the first rule: [filename and
    filename.startswith('Email_')]. *)
Definition email_named (filename : option string) : bool :=
  match filename with
  | Some f => truthy f && startswith f "Email_"
  | None => false
  end.

(** The kinds the docstring and the table name. *)
Definition kinds : list string :=
  ["PDF"; "WORD"; "IMAGE"; "TEXT"; "EMAIL"; "OTHER"].

End Orchestrator.

(** ** receiver_service.py *)

Module Receiver.
Import PyStr OsPath.

Definition extension_mapping : gmap string string :=
  list_to_map
    [ (".pdf", "PDF"); (".doc", "WORD"); (".docx", "WORD"); (".txt", "EMAIL");
      (".jpg", "IMAGE"); (".jpeg", "IMAGE"); (".png", "IMAGE");
      (".gif", "IMAGE"); (".jfif", "IMAGE"); (".eml", "EMAIL") ].

Definition get_generic_doc_type (os : os_path) (blob_name : string) : string :=
  let ext := snd (splitext os (lower blob_name)) in
  default "OTHER" (extension_mapping !! ext).

(** *** The ingestion run *)

(** The collaborators of the run.  The existence query, the identifier, the
    clock and the commit are those of the [i]-th blob listed. *)
Record env := Env {
  basename : string -> string;                     (* [os.path.basename] *)
  list_blobs : string -> list string * option exn; (* names, then maybe a raise *)
  blob_url : string -> string;
  uuid4 : nat -> string;
  utcnow : nat -> Z;
  query_first : nat -> result unit;
  commit : nat -> result unit;
}.

(** One dictionary of [results]. *)
Inductive entry :=
| DocEntry (e_doc_id e_doc_name : string) (e_doc_type : option string)
           (e_status : string) (e_azure_blob_url : option string)
| ErrorEntry (e_doc_name e_status e_error : string).

Definition entry_status (r : entry) : string :=
  match r with
  | DocEntry _ _ _ st _ => st
  | ErrorEntry _ st _ => st
  end.

Definition existing_entry (existing_doc : Document) : entry :=
  DocEntry (doc_id existing_doc) (doc_name existing_doc)
    (doc_type existing_doc) "exists" (azure_blob_url existing_doc).

(** The filter of the existence query. *)
Definition matches (file_name sid kind : string) (d : Document) : bool :=
  String.eqb (doc_name d) file_name && String.eqb (session_id d) sid &&
  match doc_type d with
  | Some t => String.eqb t kind
  | None => false
  end.

(** The row the existence query returns for a blob, [.first()]. *)
Definition find_existing (e : env) (os : os_path) (sid : string)
    (db : list Document) (blob_name : string) : option Document :=
  let file_name := basename e blob_name in
  List.find (matches file_name sid (get_generic_doc_type os file_name)) db.

(** The body of [for blob in blob_list], with its [try]/[except]; [kind],
    [url] and [new_id] are the locals [doc_type], [azure_blob_url] and
    [doc_id]. *)
Definition ingest_blob (e : env) (os : os_path) (sid : string) (i : nat)
    (blob_name : string) (db : list Document) : list Document * entry :=
  let attempt : result (list Document * entry) :=
    let file_name := basename e blob_name in
    let kind := get_generic_doc_type os file_name in
    match query_first e i with
    | Raise x => Raise x
    | Ok _ =>
        match List.find (matches file_name sid kind) db with
        | Some existing_doc =>
            Ok (db, existing_entry existing_doc)
        | None =>
            let url := blob_url e blob_name in
            let new_id := uuid4 e i in
            let document :=
              {| doc_id := new_id; doc_name := file_name;
                 doc_type := Some kind; status := Some "RECEIVED";
                 azure_blob_url := Some url;
                 created_at := Some (utcnow e i); updated_at := None;
                 session_id := sid;
                 extracted_text := None; entity_list := None |} in
            match commit e i with
            | Raise x => Raise x
            | Ok _ =>
                Ok ((db ++ [document])%list,
                    DocEntry new_id file_name (Some kind) "success" (Some url))
            end
        end
    end in
  match attempt with
  | Ok r => r
  | Raise x => (db, ErrorEntry blob_name "error" (str_exn x))
  end.

Fixpoint ingest_loop (e : env) (os : os_path) (sid : string) (i : nat)
    (blob_list : list string) (db : list Document) (results : list entry)
  : list Document * list entry :=
  match blob_list with
  | [] => (db, results)
  | blob :: rest =>
      let '(db', r) := ingest_blob e os sid i blob db in
      ingest_loop e os sid (S i) rest db' (results ++ [r])%list
  end.

(** The run returns its message and [results], or raises; the table it
    leaves is the second component. *)
Definition process_session_documents (e : env) (os : os_path) (sid : string)
    (db : list Document) : result (string * list entry) * list Document :=
  let '(blob_list, failure) := list_blobs e (sid ++ "/") in
  let '(db', results) := ingest_loop e os sid 0 blob_list db [] in
  match failure with
  | Some x =>
      (Raise (Exception ("Failed to process session: " ++ str_exn x)), db')
  | None =>
      (Ok ("Processed " ++ pretty (List.length results) ++
           " documents for session " ++ sid, results), db')
  end.

End Receiver.


(** ** extractor_service.py *)

Module Extractor.
Import PyStr.

(** The staging directory [temp]: its files by name.  The path
    [os.path.join("temp", name)] is the entry [name]. *)
Abbreviation dir := (gmap string file).

Definition open_ (fs : dir) (file_path : string) : result file :=
  match fs !! file_path with
  | Some f => Ok f
  | None => Raise (Exception "No such file or directory")
  end.

(** *** The strategies *)

(** One iteration of the page loop: [try: ... except Exception: continue]. *)
Definition pdf_page (text : string) (page : result string) : string :=
  match page with
  | Ok page_text =>
      if truthy (strip page_text) then text ++ page_text ++ nl else text
  | Raise _ => text
  end.

(** What one page adds to the text. *)
Definition page_contribution (page : result string) : string :=
  pdf_page "" page.

Definition extract_text_from_pdf (fs : dir) (file_path : string)
  : result string :=
  let body :=
    match open_ fs file_path with
    | Raise e => Raise e
    | Ok f =>
        (* inner try: a failing reader returns "" *)
        match pdf f with
        | Ok pages => Ok (strip (fold_left pdf_page pages ""))
        | Raise _ => Ok ""
        end
    end in
  (* outer try *)
  match body with
  | Ok text => Ok text
  | Raise _ => Ok ""
  end.

Definition extract_text_from_word (fs : dir) (file_path : string)
  : result string :=
  match open_ fs file_path with
  | Raise e => Raise e
  | Ok f =>
      match docx f with
      | Raise e => Raise e
      | Ok paragraphs =>
          Ok (fold_left (fun text paragraph => text ++ paragraph) paragraphs "")
      end
  end.

Definition extract_text_from_image (fs : dir) (file_path : string)
  : result string :=
  let body :=
    match open_ fs file_path with
    | Raise e => Raise e
    | Ok f => ocr f
    end in
  match body with
  | Ok text => Ok text
  | Raise _ => Ok ""
  end.

(** The inline branch for [EMAIL]: [open(path, "r")] and [read()]. *)
Definition read_text (fs : dir) (file_path : string) : result string :=
  match open_ fs file_path with
  | Raise e => Raise e
  | Ok f => text_mode f
  end.

(** The dispatch of [process_session_documents] on [doc.doc_type]. *)
Definition is_type (t : option string) (k : string) : bool :=
  match t with
  | Some s => String.eqb s k
  | None => false
  end.

Definition extract (fs : dir) (t : option string) (file_path : string)
  : result string :=
  if is_type t "PDF" then extract_text_from_pdf fs file_path
  else if is_type t "WORD" then extract_text_from_word fs file_path
  else if is_type t "IMAGE" then extract_text_from_image fs file_path
  else if is_type t "EMAIL" then read_text fs file_path
  else Ok "".

(** *** The run *)

(** Calls made to the two LLM collaborators, oldest first. *)
Inductive llm_call :=
| Refine (text : string)
| Entities (text : string).

Record world := World {
  db : list Document;      (* committed rows *)
  temp : option dir;       (* the staging directory, [None]: absent *)
  calls : list llm_call;
}.

(** The collaborators the run talks to. *)
Record env := Env {
  query_all : string -> result unit;       (* does the listing query raise *)
  open_wb : string -> result unit;         (* [open(temp/name, "wb")], by name *)
  download_blob : string -> result file;   (* by blob name *)
  commit : string -> result unit;          (* by [doc_id] *)
  (* [updated_at] of a row after the flush that assigns it these two values:
     the server's [now()] when an UPDATE is emitted *)
  onupdate : Document -> string -> string -> option Z;
}.

(** State and exceptions: a raise keeps the state reached. *)
Definition M (A : Type) : Type := world -> result A * world.

Definition ret {A} (a : A) : M A := fun w => (Ok a, w).
Definition raise {A} (e : exn) : M A := fun w => (Raise e, w).
Definition bind {A B} (m : M A) (k : A -> M B) : M B :=
  fun w =>
    match m w with
    | (Ok a, w') => k a w'
    | (Raise e, w') => (Raise e, w')
    end.
Definition lift {A} (r : result A) : M A := fun w => (r, w).
Definition try_except {A} (m : M A) (h : exn -> M A) : M A :=
  fun w =>
    match m w with
    | (Ok a, w') => (Ok a, w')
    | (Raise e, w') => h e w'
    end.

Declare Scope py_scope.
Delimit Scope py_scope with py.
Notation "'let!' x ':=' m 'in' k" := (bind m (fun x => k))
  (at level 10, x name, m at level 200, k at level 200) : py_scope.
Notation "'do!' m 'in' k" := (bind m (fun _ => k))
  (at level 10, m at level 200, k at level 200) : py_scope.
Open Scope py_scope.

Definition set_temp (t : option dir) (w : world) : world :=
  {| db := db w; temp := t; calls := calls w |}.
Definition set_db (d : list Document) (w : world) : world :=
  {| db := d; temp := temp w; calls := calls w |}.
Definition log_call (c : llm_call) (w : world) : world :=
  {| db := db w; temp := temp w; calls := (calls w ++ [c])%list |}.

(** [os.makedirs("temp", exist_ok=True)]. *)
Definition makedirs : M unit :=
  fun w => (Ok tt, set_temp (Some (default ∅ (temp w))) w).

(** Writing [data] to [temp/name]. *)
Definition write (name : string) (data : file) : M unit :=
  fun w => (Ok tt, set_temp (Some (<[name := data]> (default ∅ (temp w)))) w).

Definition refine_text_using_llm (text : string) : M string :=
  fun w => (Ok text, log_call (Refine text) w).

Definition llm_response : list (string * string) :=
  [("Person", "John Doe"); ("Organization", "Acme Inc.")].

(** The [entity_list] the stub builds from [llm_response]. *)
Definition entities_text : string :=
  join nl (map (fun entity => fst entity ++ ": " ++ snd entity) llm_response).

Definition extract_entities_using_llm (text : string) : M string :=
  fun w => (Ok entities_text, log_call (Entities text) w).

(** [doc.extracted_text = ...; doc.entity_list = ...] on the row. *)
Definition set_extraction (stamp : option Z) (refined_text entities : string)
    (d : Document) : Document :=
  {| doc_id := doc_id d; doc_name := doc_name d; doc_type := doc_type d;
     status := status d; azure_blob_url := azure_blob_url d;
     created_at := created_at d; updated_at := stamp;
     session_id := session_id d;
     extracted_text := Some refined_text; entity_list := Some entities |}.

(** The table after the commit of [doc]. *)
Definition committed (e : env) (doc : Document) (refined_text entities : string)
    (rows : list Document) : list Document :=
  map (fun d => if String.eqb (doc_id d) (doc_id doc)
                then set_extraction (onupdate e d refined_text entities)
                       refined_text entities d
                else d) rows.

(** [db.commit()]: the row with the document's primary key is updated, or
    the commit raises and nothing is. *)
Definition db_commit (e : env) (doc : Document) (refined_text entities : string)
  : M unit :=
  fun w =>
    match commit e (doc_id doc) with
    | Raise x => (Raise x, w)
    | Ok _ =>
        (Ok tt, set_db (committed e doc refined_text entities (db w)) w)
    end.

(** The body of [for doc in doc_list], block by block. *)

(** [open(os.path.join("temp", name), "wb")]: the names [""], ["."] and
    [".."] are directories and cannot be opened; for the others the
    platform decides (a name too long or not valid on it raises). *)
Definition open_local (e : env) (name : string) : result unit :=
  if String.eqb name "" || String.eqb name "." || String.eqb name ".."
  then Raise (Exception "Is a directory")
  else open_wb e name.

(** Download: [open(local_file_path, "wb")] raises, or creates or truncates
    the file; then the blob is read and written to it. *)
Definition download (e : env) (sid : string) (doc : Document) : M unit :=
  do! makedirs in
  do! lift (open_local e (doc_name doc)) in
  do! write (doc_name doc) empty_file in
  let! data := lift (download_blob e (sid ++ "/" ++ doc_name doc)) in
  write (doc_name doc) data.

(** Extract text based on document type. *)
Definition extract_text (doc : Document) : M string :=
  fun w => (extract (default ∅ (temp w)) (doc_type doc) (doc_name doc), w).

(** Refine the text using the LLM: [(refined_text, entity_list)]. *)
Definition refine (text : string) : M (string * string) :=
  if truthy text
  then let! refined_text := refine_text_using_llm text in
       let! entities := extract_entities_using_llm refined_text in
       ret (refined_text, entities)
  else ret ("", "").

Definition process_document (e : env) (sid : string) (doc : Document) : M unit :=
  do! download e sid doc in
  let! text := extract_text doc in
  let! p := refine text in
  db_commit e doc (fst p) (snd p).

Fixpoint for_each (body : Document -> M unit) (doc_list : list Document) : M unit :=
  match doc_list with
  | [] => ret tt
  | doc :: rest => do! body doc in for_each body rest
  end.

(** [db.query(Document).filter(Document.session_id == session_id).all()]. *)
Definition query_session (e : env) (sid : string) : M (list Document) :=
  fun w =>
    match query_all e sid with
    | Raise x => (Raise x, w)
    | Ok _ => (Ok (filter (fun d => session_id d = sid) (db w)), w)
    end.

Definition process_session_documents (e : env) (sid : string)
  : M (string * string) :=
  try_except
    (let! doc_list := query_session e sid in
     do! for_each (process_document e sid) doc_list in
     ret ("success",
          "All documents for session " ++ sid ++ " processed successfully"))
    (fun x => raise (Exception ("Failed to process session: " ++ str_exn x))).

(** The columns a run does not assign. *)
Definition meta (d : Document) :=
  (doc_id d, doc_name d, doc_type d, status d, azure_blob_url d,
   created_at d, session_id d).

(** *** [main] *)

(** The clean-up in [main]'s [finally]: every listed file is removed, then
    [os.rmdir] removes the directory if it is empty; an error is logged. *)
Definition cleanup (w : world) : world :=
  match temp w with
  | None => w
  | Some files =>
      let files' := foldr delete files (map fst (map_to_list files)) in
      set_temp (if decide (files' = ∅) then None else Some files') w
  end.

(** The loop of [main] over the lines typed: it ends at the first [exit],
    or, the lines exhausted, with the interrupt that ends the pending
    [input]; an exception of a run is caught and logged. *)
Fixpoint main_loop (e : env) (lines : list string) (w : world) : world :=
  match lines with
  | [] => w
  | sid :: rest =>
      if String.eqb (lower sid) "exit" then w
      else main_loop e rest (snd (process_session_documents e sid w))
  end.

Definition main (e : env) (lines : list string) (w : world) : world :=
  cleanup (main_loop e lines w).

End Extractor.

(** ** azure_storage.py and the upload endpoints of orchestrator_service.py *)

Module Upload.
Import PyStr.

(** [s.replace(old, new)] for one-character [old] and [new]. *)
Fixpoint replace (s : string) (old new : ascii) : string :=
  match s with
  | EmptyString => EmptyString
  | String c r => String (if Ascii.eqb c old then new else c) (replace r old new)
  end.

(** [s.encode("utf-8")], one [ascii] per byte, for code points below
    U+0100: one byte below U+0080, two bytes from there. *)
Fixpoint utf8 (s : string) : string :=
  match s with
  | EmptyString => EmptyString
  | String c r =>
      let n := N_of_ascii c in
      if (n <? 128)%N then String c (utf8 r)
      else String (ascii_of_N (192 + n / 64))
             (String (ascii_of_N (128 + n mod 64)) (utf8 r))
  end.

(** What a file opened in text mode for writing receives for [s]: on
    Windows every newline is written as carriage return and newline. *)
Fixpoint crlf (s : string) : string :=
  match s with
  | EmptyString => EmptyString
  | String c r =>
      if Ascii.eqb c (ascii_of_nat 10)
      then String (ascii_of_nat 13) (String c (crlf r))
      else String c (crlf r)
  end.

Definition written (os : os_path) (s : string) : string :=
  match os with
  | posixpath => s
  | ntpath => crlf s
  end.

(** A FastAPI [UploadFile]: its name and the bytes [read()] returns. *)
Record UploadFile := {
  filename : string;
  content : string;
}.

(** The storage account as [AzureStorageManager.upload_file] meets it: the
    outcome of its [n]-th call (connection, read and [upload_blob]), and
    the URL of a blob. *)
Record env := Env {
  upload_blob : nat -> result unit;
  blob_url : string -> string;
  (* [open(file_path, 'w')] in the temporary directory, by file name: it
     raises, for one, when the name holds a separator and names a
     directory that is not there *)
  open_w : string -> result unit;
}.

(** The container, blobs by name, and the number of calls made. *)
Record cloud := Cloud {
  container : gmap string string;
  uploads : nat;
}.

(** [AzureStorageManager.upload_file]: the blob [session_id/filename] is
    written with [overwrite=True] and its URL returned; an exception is
    logged and raised again. *)
Definition upload_file (e : env) (file : UploadFile) (name session_id : string)
    (c : cloud) : result string * cloud :=
  let blob_name := session_id ++ "/" ++ name in
  match upload_blob e (uploads c) with
  | Ok _ =>
      (Ok (blob_url e blob_name),
       {| container := <[blob_name := content file]> (container c);
          uploads := S (uploads c) |})
  | Raise x =>
      (Raise x, {| container := container c; uploads := S (uploads c) |})
  end.

(** One dictionary of an endpoint's [results]. *)
Inductive item :=
| Uploaded (i_file_name i_status i_azure_blob_url : string)
| NotUploaded (i_doc_name i_status i_error : string).

Definition item_status (r : item) : string :=
  match r with
  | Uploaded _ st _ => st
  | NotUploaded _ st _ => st
  end.

Definition item_name (r : item) : string :=
  match r with
  | Uploaded n _ _ => n
  | NotUploaded n _ _ => n
  end.

(** *** [upload_documents] *)

Fixpoint upload_documents_loop (e : env) (session_id : string)
    (files : list UploadFile) (c : cloud) (results : list item)
  : list item * cloud :=
  match files with
  | [] => (results, c)
  | file :: rest =>
      match upload_file e file (filename file) session_id c with
      | (Ok azure_blob_url, c') =>
          upload_documents_loop e session_id rest c'
            (results ++ [Uploaded (filename file) "success" azure_blob_url])%list
      | (Raise x, c') =>
          upload_documents_loop e session_id rest c'
            (results ++ [NotUploaded (filename file) "error" (str_exn x)])%list
      end
  end.

Definition upload_documents (e : env) (session_id : string)
    (files : list UploadFile) (c : cloud) : (string * list item) * cloud :=
  let '(results, c') := upload_documents_loop e session_id files c [] in
  (("Processed " ++ pretty (List.length files) ++ " documents", results), c').

(** *** [upload_email] *)

Record Email := {
  sender_email_id : string;
  email_subject : string;
  email_body : string;
}.

(** What the endpoint answers: its value, or [HTTPException]. *)
Inductive response (A : Type) :=
| Returned (a : A)
| HTTPException (status_code : nat) (detail : string).
Arguments Returned {A} a.
Arguments HTTPException {A} status_code detail.

(** The temporary directory, files by name (the path
    [os.path.join(tempfile.gettempdir(), file_name)] is the entry
    [file_name]), and the storage account. *)
Record site := Site {
  tmp : gmap string string;
  account : cloud;
}.

Definition email_file_name (subject : string) : string :=
  replace subject " " "_" ++ ".txt".

Fixpoint upload_email_loop (e : env) (os : os_path) (session_id : string)
    (emails : list Email) (st : site) (result : list item)
  : response (list item) * site :=
  match emails with
  | [] => (Returned result, st)
  | email :: rest =>
      let subject := replace (email_subject email) " " "_" in
      let file_name := subject ++ ".txt" in
      match open_w e file_name with
      | Raise x =>
          (* except: [file_path] is removed if it exists *)
          (HTTPException 500 (str_exn x),
           {| tmp := delete file_name (tmp st); account := account st |})
      | Ok _ =>
          (* the body is written to the file, then read back as bytes *)
          let staged :=
            <[file_name := utf8 (written os (email_body email))]> (tmp st) in
          let upload_file_ :=
            {| filename := file_name;
               content := default "" (staged !! file_name) |} in
          match upload_file e upload_file_ file_name session_id (account st) with
          | (Ok azure_blob_url, c') =>
              (* os.remove(file_path) *)
              upload_email_loop e os session_id rest
                {| tmp := delete file_name staged; account := c' |}
                (result ++ [Uploaded file_name "success" azure_blob_url])%list
          | (Raise x, c') =>
              (* except: the file is removed, HTTPException(500) raised *)
              (HTTPException 500 (str_exn x),
               {| tmp := delete file_name staged; account := c' |})
          end
      end
  end.

Definition upload_email (e : env) (os : os_path) (session_id : string)
    (emails : list Email) (st : site) : response (string * list item) * site :=
  match upload_email_loop e os session_id emails st [] with
  | (Returned result, st') =>
      (Returned ("Processed " ++ pretty (List.length emails) ++ " emails", result),
       st')
  | (HTTPException code detail, st') => (HTTPException code detail, st')
  end.

End Upload.

(** ** Shapes of names, texts and tables used in the statements *)

Module Shape.
Import PyStr.

(** No character of [s] is [c]. *)
Fixpoint lacks (c : ascii) (s : string) : bool :=
  match s with
  | EmptyString => true
  | String d r => negb (Ascii.eqb d c) && lacks c r
  end.

(** No path separator of either platform. *)
Definition plain (s : string) : bool := lacks "/" s && lacks "\" s.

Fixpoint all_dots (s : string) : bool :=
  match s with
  | EmptyString => true
  | String c r => Ascii.eqb c "." && all_dots r
  end.

(** Some character of [s] is not white space. *)
Fixpoint visible (s : string) : bool :=
  match s with
  | EmptyString => false
  | String c r => negb (is_space c) || visible r
  end.

(** A page that [extract_text] reads and that shows something. *)
Definition page_visible (page : result string) : bool :=
  match page with
  | Ok page_text => visible page_text
  | Raise _ => false
  end.

(** Every character of [s] is below U+0080. *)
Fixpoint ascii_only (s : string) : bool :=
  match s with
  | EmptyString => true
  | String c r => (N_of_ascii c <? 128)%N && ascii_only r
  end.

(** What the existence query of the ingestion compares. *)
Definition key (d : Document) : string * string * option string :=
  (doc_name d, session_id d, doc_type d).

(** A row as the ingestion run of session [sid] creates it. *)
Definition fresh_row (os : os_path) (sid : string) (d : Document) : Prop :=
  session_id d = sid /\ status d = Some "RECEIVED" /\
  extracted_text d = None /\ entity_list d = None /\
  doc_type d = Some (Receiver.get_generic_doc_type os (doc_name d)).

(** The number of [success] entries. *)
Definition successes (results : list Receiver.entry) : nat :=
  List.length
    (List.filter (fun r => String.eqb (Receiver.entry_status r) "success") results).

(** The last file of a request with a given name. *)
Definition last_named (name : string) (files : list Upload.UploadFile)
  : option Upload.UploadFile :=
  List.find (fun f => String.eqb (Upload.filename f) name) (rev files).

End Shape.

(** ** Sample data *)

Module Sample.
Import PyStr OsPath Extractor.

(** A scanned PDF: its first page cannot be read. *)
Definition scan : file :=
  {| text_mode := Raise (Exception "codec can't decode byte");
     pdf := Ok [Raise (Exception "corrupt page"); Ok "Invoice 42"];
     docx := Raise (Exception "Package not found");
     ocr := Raise (Exception "cannot identify image file") |}.

(** A plain text file. *)
Definition note : file :=
  {| text_mode := Ok "hello";
     pdf := Raise (Exception "EOF marker not found");
     docx := Raise (Exception "Package not found");
     ocr := Raise (Exception "cannot identify image file") |}.

Definition received (id name kind : string) : Document :=
  {| doc_id := id; doc_name := name; doc_type := Some kind;
     status := Some "RECEIVED"; azure_blob_url := None; created_at := None;
     updated_at := None;
     session_id := "s"; extracted_text := None; entity_list := None |}.

Definition report := received "1" "report.docx" "WORD".
Definition invoice := received "2" "invoice.pdf" "PDF".
Definition blob := received "3" "data.bin" "OTHER".
Definition mail := received "4" "Email_1.txt" "EMAIL".
Definition notes_text := received "5" "notes.txt" "TEXT".
Definition notes_email := received "6" "notes.txt" "EMAIL".

(** The container holds every blob but [s/report.docx]. *)
Definition container : env :=
  {| query_all := fun _ => Ok tt;
     open_wb := fun _ => Ok tt;
     onupdate := fun _ _ _ => Some 1700000000%Z;
     download_blob := fun name =>
       if String.eqb name "s/invoice.pdf" then Ok scan
       else if String.eqb name "s/data.bin" then Ok note
       else if String.eqb name "s/Email_1.txt" then Ok note
       else if String.eqb name "s/notes.txt" then Ok note
       else if String.eqb name "s/" then Ok note
       else Raise (Exception "BlobNotFound");
     commit := fun _ => Ok tt |}.

Definition table (rows : list Document) : world :=
  {| db := rows; temp := None; calls := [] |}.

(** The ingestion side: three blobs of session [s]. *)
Definition storage : Receiver.env :=
  {| Receiver.basename := posix_basename;
     Receiver.list_blobs := fun _ =>
       (["s/invoice.pdf"; "s/Email_1.txt"; "s/data.bin"], None);
     Receiver.blob_url := fun name => "https://account.blob/" ++ name;
     Receiver.uuid4 := fun i => "id-" ++ pretty i;
     Receiver.utcnow := fun i => Z.of_nat i;
     Receiver.query_first := fun _ => Ok tt;
     Receiver.commit := fun _ => Ok tt |}.

End Sample.

Module SampleUpload.
Import Upload.

(** A storage account that always answers, and one whose second call
    times out. *)
Definition open_in_tmp (name : string) : result unit :=
  if Shape.lacks "/" name then Ok tt
  else Raise (Exception "No such file or directory").

Definition steady : env :=
  {| upload_blob := fun _ => Ok tt;
     blob_url := fun name => "https://account.blob/" ++ name;
     open_w := open_in_tmp |}.

Definition flaky : env :=
  {| upload_blob := fun n => if Nat.eqb n 1 then Raise (Exception "timeout") else Ok tt;
     blob_url := fun name => "https://account.blob/" ++ name;
     open_w := open_in_tmp |}.

Definition files : list UploadFile :=
  [ {| filename := "a.txt"; content := "one" |};
    {| filename := "b.pdf"; content := "%PDF" |};
    {| filename := "a.txt"; content := "two" |} ].

Definition emails : list Email :=
  [ {| sender_email_id := "ann@example.org"; email_subject := "Test Email";
       email_body := "This is a test email" |};
    {| sender_email_id := "ann@example.org"; email_subject := "Test Email 2";
       email_body := "This is a test email 2" |} ].

Definition fresh : site :=
  {| tmp := ∅; account := {| container := ∅; uploads := 0 |} |}.

(** An email whose subject holds a separator. *)
Definition quarterly : Email :=
  {| sender_email_id := "ann@example.org"; email_subject := "Q1/Q2 report";
     email_body := "Figures attached" |}.

End SampleUpload.

(** * Properties *)

(** ** Strings *)

Section StringFacts.
Import PyStr.

Lemma lower_char_idem c : lower_char (lower_char c) = lower_char c.
Proof. destruct c as [[] [] [] [] [] [] [] []]; reflexivity. Qed.

Lemma lower_idem s : lower (lower s) = lower s.
Proof.
  induction s as [|c r IH]; simpl; [reflexivity|].
  now rewrite lower_char_idem, IH.
Qed.

Lemma truthy_lower s : truthy (lower s) = truthy s.
Proof. destruct s; reflexivity. Qed.

Lemma truthy_false s : truthy s = false -> s = "".
Proof. destruct s; [reflexivity | discriminate]. Qed.

Lemma append_empty_r s : s ++ "" = s.
Proof.
  induction s as [|c r IH]; [reflexivity|].
  exact (f_equal (String c) IH).
Qed.

Lemma append_empty_l s : "" ++ s = s.
Proof. reflexivity. Qed.

Lemma append_assoc s t u : (s ++ t) ++ u = s ++ t ++ u.
Proof.
  induction s as [|c r IH]; [reflexivity|].
  exact (f_equal (String c) IH).
Qed.

Lemma rstrip_cons c r :
  rstrip (String c r) =
  if is_space c && negb (truthy (rstrip r)) then "" else String c (rstrip r).
Proof. reflexivity. Qed.

(** A trailing newline is stripped with the rest of the trailing space. *)
Lemma rstrip_append_nl s : rstrip (s ++ nl) = rstrip s.
Proof.
  induction s as [|c r IH]; [reflexivity|].
  change (String c r ++ nl) with (String c (r ++ nl)).
  now rewrite !rstrip_cons, IH.
Qed.

Lemma strip_append_nl s : strip (s ++ nl) = strip s.
Proof. unfold strip. now rewrite rstrip_append_nl. Qed.

Example strip_both_ends : strip (" a b" ++ nl ++ " ") = "a b".
Proof. reflexivity. Qed.

Example splitext_samples :
  OsPath.splitext posixpath "a/b.tar.gz" = ("a/b.tar", ".gz") /\
  OsPath.splitext posixpath ".bashrc" = (".bashrc", "") /\
  OsPath.splitext posixpath "a.b/c" = ("a.b/c", "") /\
  OsPath.splitext posixpath "a.b\c" = ("a", ".b\c") /\
  OsPath.splitext ntpath "a.b\c" = ("a.b\c", "").
Proof. repeat split. Qed.

End StringFacts.

(** ** The two classifiers *)

Section Classifiers.
Import PyStr OsPath.

(** Every value of the orchestrator's extension table, and its default,
    is one of the six kinds. *)
Lemma orchestrator_table_kinds ext :
  In (default "OTHER" (Orchestrator.extension_mapping !! ext)) Orchestrator.kinds.
Proof.
  destruct (Orchestrator.extension_mapping !! ext) as [k|] eqn:E; simpl.
  - apply elem_of_list_to_map_2 in E.
    repeat (apply elem_of_cons in E as [E|E];
            [injection E as _ ->; simpl; tauto|]).
    inversion E.
  - do 5 right. now left.
Qed.

Lemma classify_in_kinds os mime_type filename :
  In (Orchestrator.get_generic_doc_type os mime_type filename) Orchestrator.kinds.
Proof.
  unfold Orchestrator.get_generic_doc_type.
  repeat match goal with
         | |- In (if ?b then _ else _) _ => destruct b
         | |- In (match ?o with Some _ => _ | None => _ end) _ => destruct o
         end;
    try apply orchestrator_table_kinds; simpl; tauto.
Qed.

(** The first rule fires on the filename whatever the MIME type is. *)
Lemma classify_email_named os mime_type filename :
  Orchestrator.email_named filename = true ->
  Orchestrator.get_generic_doc_type os mime_type filename = "EMAIL".
Proof.
  unfold Orchestrator.get_generic_doc_type, Orchestrator.email_named.
  intros ->. now rewrite orb_true_r.
Qed.

Lemma classify_pdf_mime os filename :
  Orchestrator.email_named filename = false ->
  Orchestrator.get_generic_doc_type os (Some "application/pdf") filename = "PDF".
Proof.
  unfold Orchestrator.get_generic_doc_type, Orchestrator.email_named.
  intros ->. reflexivity.
Qed.

Lemma classify_jpeg_mime os filename :
  Orchestrator.email_named filename = false ->
  Orchestrator.get_generic_doc_type os (Some "image/jpeg") filename = "IMAGE".
Proof.
  unfold Orchestrator.get_generic_doc_type, Orchestrator.email_named.
  intros ->. reflexivity.
Qed.

(** With no MIME type, a name with the prefix in lower case goes to the
    extension table. *)
Lemma classify_lowercase_prefix os (mime_type : option string) s :
  mime_type = None \/ mime_type = Some "" ->
  Orchestrator.get_generic_doc_type os mime_type (Some ("email_" ++ s)) =
  default "OTHER"
    (Orchestrator.extension_mapping !! snd (splitext os (lower ("email_" ++ s)))).
Proof. intros [-> | ->]; reflexivity. Qed.

Lemma classify_mime_lower os m filename :
  Orchestrator.get_generic_doc_type os (Some m) filename =
  Orchestrator.get_generic_doc_type os (Some (lower m)) filename.
Proof.
  unfold Orchestrator.get_generic_doc_type.
  now rewrite truthy_lower, lower_idem.
Qed.

(** C5 fails as stated: a name starting with [Email_] wins over the MIME
    type [application/pdf]. *)
Lemma classify_pdf_mime_email_name :
  Orchestrator.get_generic_doc_type posixpath
    (Some "application/pdf") (Some "Email_1.txt") <> "PDF".
Proof. vm_compute. discriminate. Qed.

(** C5, amended: the MIME-based classifier returns one of the six kinds on
    every input; [application/pdf] gives PDF and [image/jpeg] gives IMAGE
    for every filename that does not start with [Email_] (an absent or
    empty one included), and EMAIL for those that do; the three concrete
    examples hold. *)
Theorem classify_total_and_examples :
  (forall os mime_type filename,
      In (Orchestrator.get_generic_doc_type os mime_type filename)
         Orchestrator.kinds) /\
  (forall os filename,
      Orchestrator.email_named filename = false ->
      Orchestrator.get_generic_doc_type os (Some "application/pdf") filename = "PDF" /\
      Orchestrator.get_generic_doc_type os (Some "image/jpeg") filename = "IMAGE") /\
  (forall os mime_type filename,
      Orchestrator.email_named filename = true ->
      Orchestrator.get_generic_doc_type os mime_type filename = "EMAIL") /\
  (forall os,
      Orchestrator.get_generic_doc_type os
        (Some "application/octet-stream") (Some "report.docx") = "WORD" /\
      Orchestrator.get_generic_doc_type os
        (Some "application/octet-stream") (Some "notes.xyz") = "OTHER" /\
      Orchestrator.get_generic_doc_type os None (Some "Email_123.txt") = "EMAIL").
Proof.
  split; [exact classify_in_kinds|].
  split; [intros os f H; split;
          [now apply classify_pdf_mime | now apply classify_jpeg_mime]|].
  split; [exact classify_email_named|].
  intros []; repeat split; vm_compute; reflexivity.
Qed.

Lemma classify_total_and_examples_witness :
  Orchestrator.get_generic_doc_type ntpath
    (Some "application/pdf") (Some "scan.bin") = "PDF" /\
  Orchestrator.get_generic_doc_type ntpath
    (Some "image/jpeg") None = "IMAGE" /\
  Orchestrator.get_generic_doc_type ntpath
    (Some "image/jpeg") (Some "Email_7.jpg") = "EMAIL".
Proof.
  destruct classify_total_and_examples as (_ & Hmime & Hname & _).
  split; [apply Hmime; reflexivity|].
  split; [apply Hmime; reflexivity|].
  apply Hname; reflexivity.
Defined.

(** C9: for every filename starting with [Email_] whose extension the
    blob-name classifier's table sends to a kind other than EMAIL (the
    default OTHER of an unlisted extension included), the blob-name
    classifier returns that kind, and the MIME-based classifier, given no or
    an empty MIME type, returns EMAIL: the two disagree. *)
Theorem classifiers_disagree_on_email_prefix os s k :
  default "OTHER"
    (Receiver.extension_mapping !! snd (splitext os (lower ("Email_" ++ s)))) = k ->
  k <> "EMAIL" ->
  Receiver.get_generic_doc_type os ("Email_" ++ s) = k /\
  Orchestrator.get_generic_doc_type os None (Some ("Email_" ++ s)) = "EMAIL" /\
  Orchestrator.get_generic_doc_type os (Some "") (Some ("Email_" ++ s)) = "EMAIL" /\
  Receiver.get_generic_doc_type os ("Email_" ++ s) <>
  Orchestrator.get_generic_doc_type os None (Some ("Email_" ++ s)).
Proof.
  intros Hk Hne.
  assert (HE : forall m, Orchestrator.get_generic_doc_type os m
                           (Some ("Email_" ++ s)) = "EMAIL")
    by (intros m; apply classify_email_named; reflexivity).
  unfold Receiver.get_generic_doc_type. rewrite !HE, Hk. auto.
Qed.

Lemma classifiers_disagree_on_email_prefix_witness :
  Receiver.get_generic_doc_type posixpath "Email_1.pdf" = "PDF" /\
  Orchestrator.get_generic_doc_type posixpath None (Some "Email_1.pdf") = "EMAIL".
Proof.
  destruct (classifiers_disagree_on_email_prefix posixpath "1.pdf" "PDF")
    as (H1 & H2 & _); [reflexivity | discriminate |].
  split; [exact H1 | exact H2].
Defined.

(** C10: the MIME type is compared after lowering, so its case does not
    matter; the [Email_] test on the filename is exact: with no or an empty
    MIME type a name starting with [Email_] is EMAIL, while one starting
    with [email_] is looked up in the extension table, and
    [classify(None, "email_1.txt")] is TEXT. *)
Theorem email_prefix_case_sensitive os :
  (forall m filename,
      Orchestrator.get_generic_doc_type os (Some m) filename =
      Orchestrator.get_generic_doc_type os (Some (lower m)) filename) /\
  (forall s,
      Orchestrator.get_generic_doc_type os None (Some ("Email_" ++ s)) = "EMAIL" /\
      Orchestrator.get_generic_doc_type os (Some "") (Some ("Email_" ++ s)) = "EMAIL") /\
  (forall s,
      let table_kind :=
        default "OTHER"
          (Orchestrator.extension_mapping !!
             snd (splitext os (lower ("email_" ++ s)))) in
      Orchestrator.get_generic_doc_type os None (Some ("email_" ++ s)) = table_kind /\
      Orchestrator.get_generic_doc_type os (Some "") (Some ("email_" ++ s)) = table_kind) /\
  Orchestrator.get_generic_doc_type os None (Some "email_1.txt") = "TEXT" /\
  Orchestrator.get_generic_doc_type os (Some "EMAIL") None = "EMAIL" /\
  Orchestrator.get_generic_doc_type os (Some "Application/PDF") None = "PDF".
Proof.
  split; [apply classify_mime_lower|].
  split; [intros s; split; apply classify_email_named; reflexivity|].
  split; [intros s; split; apply classify_lowercase_prefix; auto|].
  destruct os; repeat split; vm_compute; reflexivity.
Qed.

End Classifiers.

(** ** The extraction strategies *)

Section Strategies.
Import PyStr Extractor.

Lemma pdf_page_append text page :
  pdf_page text page = text ++ page_contribution page.
Proof.
  unfold page_contribution, pdf_page.
  destruct page as [t|x]; [destruct (truthy (strip t))|];
    simpl; now rewrite ?append_empty_r.
Qed.

(** The page loop adds the pages' contributions in page order. *)
Lemma pdf_pages_fold pages text :
  fold_left pdf_page pages text =
  text ++ foldr append "" (map page_contribution pages).
Proof.
  revert text; induction pages as [|page rest IH]; intros text; simpl.
  - now rewrite append_empty_r.
  - now rewrite IH, pdf_page_append, append_assoc.
Qed.

Lemma strip_page_contribution t : strip (page_contribution (Ok t)) = strip t.
Proof.
  unfold page_contribution, pdf_page.
  destruct (truthy (strip t)) eqn:E; simpl.
  - apply strip_append_nl.
  - symmetry. now apply truthy_false.
Qed.

Lemma pdf_never_raises fs file_path :
  is_ok (extract_text_from_pdf fs file_path) = true.
Proof.
  unfold extract_text_from_pdf.
  destruct (open_ fs file_path) as [f|x]; [destruct (pdf f)|]; reflexivity.
Qed.

Lemma image_never_raises fs file_path :
  is_ok (extract_text_from_image fs file_path) = true.
Proof.
  unfold extract_text_from_image.
  destruct (open_ fs file_path) as [f|x]; [destruct (ocr f)|]; reflexivity.
Qed.

(** C2, at the input where the code breaks it: on a file python-docx cannot
    open, here the empty file, [extract_text_from_word] raises, where the
    PDF and image strategies catch the failure and return the empty
    string. *)
Theorem word_strategy_raises :
  extract_text_from_word {[ "a.docx" := empty_file ]} "a.docx" =
    Raise (Exception "Package not found") /\
  extract_text_from_pdf {[ "a.docx" := empty_file ]} "a.docx" = Ok "" /\
  extract_text_from_image {[ "a.docx" := empty_file ]} "a.docx" = Ok "".
Proof. repeat split; vm_compute; reflexivity. Qed.

(** C6 fails as stated: the text of the readable page is not returned
    exactly, its leading white space is stripped too. *)
Lemma pdf_readable_page_not_exact :
  let f := {| text_mode := Raise (Exception "codec");
              pdf := Ok [Raise (Exception "corrupt page"); Ok " a"];
              docx := Raise (Exception "Package not found");
              ocr := Raise (Exception "cannot identify image file") |} in
  extract_text_from_pdf {[ "x.pdf" := f ]} "x.pdf" = Ok "a" /\
  extract_text_from_pdf {[ "x.pdf" := f ]} "x.pdf" <> Ok " a".
Proof. split; vm_compute; [reflexivity | discriminate]. Qed.

(** C6, amended: the PDF strategy never raises; it visits the pages in
    order, a page that raises or whose text is blank adds nothing and does
    not stop the later pages, every other page adds its text followed by a
    newline, and the whole is stripped of white space at both ends; a file
    that cannot be opened or read as a PDF gives the empty string; with one
    unreadable and one readable page the result is the readable page's
    text stripped at both ends. *)
Theorem pdf_strategy fs file_path :
  is_ok (extract_text_from_pdf fs file_path) = true /\
  (forall e, page_contribution (Raise e) = "") /\
  (forall t, page_contribution (Ok t) =
             if truthy (strip t) then t ++ nl else "") /\
  (forall f pages,
      fs !! file_path = Some f -> pdf f = Ok pages ->
      extract_text_from_pdf fs file_path =
      Ok (strip (foldr append "" (map page_contribution pages)))) /\
  (fs !! file_path = None -> extract_text_from_pdf fs file_path = Ok "") /\
  (forall f e,
      fs !! file_path = Some f -> pdf f = Raise e ->
      extract_text_from_pdf fs file_path = Ok "") /\
  (forall f e t,
      fs !! file_path = Some f ->
      pdf f = Ok [Raise e; Ok t] \/ pdf f = Ok [Ok t; Raise e] ->
      extract_text_from_pdf fs file_path = Ok (strip t)).
Proof.
  split; [apply pdf_never_raises|].
  split; [reflexivity|]. split; [reflexivity|].
  unfold extract_text_from_pdf, open_.
  split; [intros f pages -> ->; now rewrite pdf_pages_fold|].
  split; [now intros ->|].
  split; [now intros f e -> ->|].
  intros f e t -> [-> | ->]; rewrite pdf_pages_fold; cbn [map foldr].
  - change (page_contribution (Raise e)) with "".
    now rewrite !append_empty_l, append_empty_r, strip_page_contribution.
  - change (page_contribution (Raise e)) with "".
    now rewrite append_empty_l, !append_empty_r, strip_page_contribution.
Qed.

Lemma pdf_strategy_witness :
  let f := {| text_mode := Raise (Exception "codec");
              pdf := Ok [Ok "Title "; Raise (Exception "corrupt page")];
              docx := Raise (Exception "Package not found");
              ocr := Raise (Exception "cannot identify image file") |} in
  extract_text_from_pdf {[ "x.pdf" := f ]} "x.pdf" = Ok "Title" /\
  extract_text_from_pdf {[ "x.pdf" := f ]} "y.pdf" = Ok "".
Proof.
  intros f. split.
  - destruct (pdf_strategy {[ "x.pdf" := f ]} "x.pdf")
      as (_ & _ & _ & _ & _ & _ & H).
    apply (H f (Exception "corrupt page") "Title "); [reflexivity|].
    right. reflexivity.
  - destruct (pdf_strategy {[ "x.pdf" := f ]} "y.pdf")
      as (_ & _ & _ & _ & H & _).
    apply H. reflexivity.
Defined.

(** The dispatch has no branch for TEXT: its raw text is empty whatever
    the file holds. *)
Lemma text_kind_not_read :
  let f := {| text_mode := Ok "hello";
              pdf := Raise (Exception "not a PDF");
              docx := Raise (Exception "Package not found");
              ocr := Raise (Exception "cannot identify image file") |} in
  extract {[ "notes.txt" := f ]} (Some "TEXT") "notes.txt" = Ok "" /\
  extract {[ "notes.txt" := f ]} (Some "TEXT") "notes.txt" <> text_mode f.
Proof. split; vm_compute; [reflexivity | discriminate]. Qed.

End Strategies.

(** ** The extraction run *)

Section ExtractionRun.
Import PyStr Extractor.

Variable e : env.
Variable sid : string.

(** Every path through the body of the loop. *)
Lemma process_document_cases doc w :
  let name := doc_name doc in
  let fs0 := default ∅ (temp w) in
  match open_local e name with
  | Raise x => process_document e sid doc w = (Raise x, set_temp (Some fs0) w)
  | Ok _ =>
  match download_blob e (sid ++ "/" ++ name) with
  | Raise x =>
      process_document e sid doc w =
      (Raise x, set_temp (Some (<[name := empty_file]> fs0)) w)
  | Ok data =>
      let fs1 := <[name := data]> (<[name := empty_file]> fs0) in
      let w1 := set_temp (Some fs1) w in
      match extract fs1 (doc_type doc) name with
      | Raise x => process_document e sid doc w = (Raise x, w1)
      | Ok text =>
          let w2 := if truthy text
                    then log_call (Entities text) (log_call (Refine text) w1)
                    else w1 in
          let p := if truthy text then (text, entities_text) else ("", "") in
          match commit e (doc_id doc) with
          | Raise x => process_document e sid doc w = (Raise x, w2)
          | Ok _ =>
              process_document e sid doc w =
              (Ok tt, set_db (committed e doc (fst p) (snd p) (db w)) w2)
          end
      end
  end
  end.
Proof.
  cbv zeta.
  unfold process_document, download, extract_text, refine, db_commit,
    bind, lift, makedirs, write, ret.
  cbn [temp set_temp default db].
  destruct (open_local e _) as [u|x]; [|reflexivity].
  cbn [temp set_temp default db].
  destruct (download_blob e _) as [data|x]; [|reflexivity].
  cbn [temp set_temp default db].
  destruct (extract _ _ _) as [text|x]; [|reflexivity].
  destruct (truthy text);
    unfold refine_text_using_llm, extract_entities_using_llm, bind, ret;
    cbn [fst snd db log_call set_temp];
    destruct (commit e (doc_id doc)); reflexivity.
Qed.

Lemma meta_set_extraction stamp r el d :
  meta (set_extraction stamp r el d) = meta d.
Proof. reflexivity. Qed.

Lemma meta_committed doc r el rows :
  map meta (committed e doc r el rows) = map meta rows.
Proof.
  unfold committed. rewrite map_map. apply map_ext.
  intros d. now destruct (String.eqb _ _).
Qed.

(** A document that fails leaves the table as it was. *)
Lemma process_document_raise doc w x w' :
  process_document e sid doc w = (Raise x, w') -> db w' = db w.
Proof.
  pose proof (process_document_cases doc w) as H. cbv zeta in H.
  destruct (open_local e _) as [u|y]; [|rewrite H; now intros [= _ <-]].
  destruct (download_blob e _) as [data|y].
  - destruct (extract _ _ _) as [text|y].
    + destruct (commit e (doc_id doc)); rewrite H; intros E;
        inversion E; subst; now destruct (truthy text).
    + rewrite H. now intros [= _ <-].
  - rewrite H. now intros [= _ <-].
Qed.

Lemma process_document_meta doc w :
  map meta (db (snd (process_document e sid doc w))) = map meta (db w).
Proof.
  pose proof (process_document_cases doc w) as H. cbv zeta in H.
  destruct (open_local e _) as [u|y]; [|now rewrite H].
  destruct (download_blob e _) as [data|y]; [|now rewrite H].
  destruct (extract _ _ _) as [text|y]; [|now rewrite H].
  destruct (commit e (doc_id doc)); rewrite H; cbn [snd];
    destruct (truthy text); cbn [db set_db log_call set_temp];
    now rewrite ?meta_committed.
Qed.

Lemma for_each_meta doc_list w :
  map meta (db (snd (for_each (process_document e sid) doc_list w))) =
  map meta (db w).
Proof.
  revert w; induction doc_list as [|doc rest IH]; intros w; [reflexivity|].
  cbn [for_each]. unfold bind.
  pose proof (process_document_meta doc w) as H.
  destruct (process_document e sid doc w) as [[u|x] w1]; cbn [snd] in *.
  - now rewrite IH.
  - exact H.
Qed.

Lemma run_meta w :
  map meta (db (snd (process_session_documents e sid w))) = map meta (db w).
Proof.
  unfold process_session_documents, try_except, bind, query_session, raise, ret.
  destruct (query_all e sid); [|reflexivity].
  pose proof (for_each_meta (filter (fun d => session_id d = sid) (db w)) w) as H.
  destruct (for_each _ _ w) as [[u|x] w1]; exact H.
Qed.

Lemma map_meta_status rows rows' :
  map meta rows = map meta rows' -> map status rows = map status rows'.
Proof.
  intros H.
  assert (G : forall l, map status l = map (fun m => snd (fst (fst (fst m)))) (map meta l))
    by (intros l; rewrite map_map; reflexivity).
  now rewrite !G, H.
Qed.

(** What a commit writes, row by row. *)
Lemma committed_rows doc r el rows :
  Forall2 (fun d d' =>
             if String.eqb (doc_id d) (doc_id doc)
             then extracted_text d' = Some r /\ entity_list d' = Some el /\
                  status d' = status d /\ meta d' = meta d
             else d' = d)
    rows (committed e doc r el rows).
Proof.
  induction rows as [|d rows IH]; [constructor|].
  cbn [committed map]. constructor; [|exact IH].
  destruct (String.eqb (doc_id d) (doc_id doc)); [|reflexivity].
  repeat split.
Qed.

Lemma extract_email fs file_path f :
  fs !! file_path = Some f -> extract fs (Some "EMAIL") file_path = text_mode f.
Proof. intros H. cbn. unfold read_text, open_. now rewrite H. Qed.

(** C1 fails as stated: the first document's download fails; it is not
    marked FAILED, and the second document is not processed. *)
Lemma failed_download_ends_run :
  let r := process_session_documents Sample.container "s"
             (Sample.table [Sample.report; Sample.invoice]) in
  fst r = Raise (Exception "Failed to process session: BlobNotFound") /\
  map status (db (snd r)) = [Some "RECEIVED"; Some "RECEIVED"] /\
  map extracted_text (db (snd r)) = [None; None].
Proof. vm_compute. repeat split. Qed.

(** C1, amended: a document at which the download, the extraction or the
    commit fails is not marked FAILED: its failure leaves the table as it
    was, and a run, however it ends, changes no row's status nor any other
    column but the extracted text, the entity list and [updated_at], the
    three left out of [meta]. *)
Theorem failed_document_row_unchanged :
  (forall doc w x w',
      process_document e sid doc w = (Raise x, w') -> db w' = db w) /\
  (forall w,
      let w' := snd (process_session_documents e sid w) in
      map status (db w') = map status (db w) /\
      map meta (db w') = map meta (db w)).
Proof.
  split; [exact process_document_raise|].
  intros w. cbv zeta. split; [apply map_meta_status|]; apply run_meta.
Qed.

(** C3 fails as stated: a document of kind OTHER is committed with empty
    text and entities, and its status stays RECEIVED. *)
Lemma other_kind_not_marked_processed :
  let r := process_session_documents Sample.container "s"
             (Sample.table [Sample.blob]) in
  is_ok (fst r) = true /\
  map extracted_text (db (snd r)) = [Some ""] /\
  map entity_list (db (snd r)) = [Some ""] /\
  map status (db (snd r)) = [Some "RECEIVED"] /\
  map status (db (snd r)) <> [Some "PROCESSED"].
Proof. vm_compute. repeat split. discriminate. Qed.

(** C3, amended: for a document whose local file opens, whose blob is
    downloaded and whose commit works, and whose kind is OTHER or whose
    extraction yields no text, the run writes the empty string as extracted
    text and as entity list (the text of an empty list) on the row of the
    document, other rows being left as they are, calls neither LLM
    collaborator, and leaves the status as it was. *)
Theorem empty_text_persisted doc w data :
  open_local e (doc_name doc) = Ok tt ->
  download_blob e (sid ++ "/" ++ doc_name doc) = Ok data ->
  commit e (doc_id doc) = Ok tt ->
  doc_type doc = Some "OTHER" \/
  extract (<[doc_name doc := data]> (default ∅ (temp w)))
    (doc_type doc) (doc_name doc) = Ok "" ->
  let r := process_document e sid doc w in
  fst r = Ok tt /\
  Forall2 (fun d d' =>
             if String.eqb (doc_id d) (doc_id doc)
             then extracted_text d' = Some "" /\
                  entity_list d' = Some (join nl []) /\
                  status d' = status d /\ meta d' = meta d
             else d' = d)
    (db w) (db (snd r)) /\
  calls (snd r) = calls w.
Proof.
  intros Ho Hd Hc Hx. cbv zeta.
  assert (Hx' : extract (<[doc_name doc := data]>
                           (<[doc_name doc := empty_file]> (default ∅ (temp w))))
                  (doc_type doc) (doc_name doc) = Ok "").
  { rewrite insert_insert_eq.
    destruct Hx as [Hk|Hx]; [now rewrite Hk | exact Hx]. }
  pose proof (process_document_cases doc w) as H. cbv zeta in H.
  rewrite Ho, Hd, Hx', Hc in H. rewrite H.
  cbn [fst snd truthy db calls set_db set_temp].
  split; [reflexivity|]. split; [apply committed_rows | reflexivity].
Qed.

(** C4, at the input where the code breaks it: a row of kind TEXT whose
    blob reads ["hello"] in text mode is stored with the empty string as
    extracted text, without a call to either collaborator, where the same
    blob under kind EMAIL is stored with ["hello"]. *)
Theorem text_document_stored_empty :
  let r := process_session_documents Sample.container "s"
             (Sample.table [Sample.notes_text]) in
  let r' := process_session_documents Sample.container "s"
              (Sample.table [Sample.notes_email]) in
  download_blob Sample.container "s/notes.txt" = Ok Sample.note /\
  text_mode Sample.note = Ok "hello" /\
  is_ok (fst r) = true /\
  map extracted_text (db (snd r)) = [Some ""] /\
  calls (snd r) = [] /\
  map extracted_text (db (snd r')) = [Some "hello"].
Proof. vm_compute. repeat split. Qed.

End ExtractionRun.

Section Staging.
Import PyStr Extractor.

Lemma lookup_foldr_delete (l : list string) (m : gmap string file) k :
  foldr delete m l !! k = if decide (k ∈ l) then None else m !! k.
Proof.
  induction l as [|a l IH]; [reflexivity|].
  cbn [foldr]. destruct (decide (a = k)) as [->|Hne].
  - rewrite lookup_delete_eq. rewrite decide_True; [reflexivity | constructor].
  - rewrite lookup_delete_ne, IH by exact Hne.
    destruct (decide (k ∈ l)) as [Hin|Hin].
    + rewrite decide_True; [reflexivity | now constructor].
    + rewrite decide_False; [reflexivity|].
      intros Hk. apply elem_of_cons in Hk as [->|Hk]; [now apply Hne | now apply Hin].
Qed.

(** Removing every listed file leaves the directory empty. *)
Lemma remove_listed_files (m : gmap string file) :
  foldr delete m (map fst (map_to_list m)) = ∅.
Proof.
  apply map_eq. intros k. rewrite lookup_foldr_delete, lookup_empty.
  destruct (decide _) as [|Hn]; [reflexivity|].
  destruct (m !! k) as [v|] eqn:E; [|reflexivity].
  exfalso. apply Hn. apply list_elem_of_fmap. exists (k, v).
  split; [reflexivity | now apply elem_of_map_to_list].
Qed.

Lemma cleanup_removes w : temp (cleanup w) = None.
Proof.
  unfold cleanup. destruct (temp w) as [files|] eqn:E; [|exact E].
  cbn [temp set_temp]. now rewrite remove_listed_files, decide_True.
Qed.



End Staging.

Section ExtractionSamples.
Import Extractor.

Lemma failed_document_row_unchanged_witness :
  let w := Sample.table [Sample.report; Sample.invoice] in
  db (snd (Extractor.process_document Sample.container "s" Sample.report w)) = db w.
Proof.
  intros w.
  apply (proj1 (failed_document_row_unchanged Sample.container "s"))
    with (doc := Sample.report) (x := Exception "BlobNotFound").
  vm_compute. reflexivity.
Defined.

Lemma empty_text_persisted_witness :
  let w := Sample.table [Sample.invoice; Sample.blob] in
  let r := Extractor.process_document Sample.container "s" Sample.blob w in
  fst r = Ok tt /\
  Forall2 (fun d d' =>
             if String.eqb (doc_id d) "3"
             then extracted_text d' = Some "" /\ entity_list d' = Some "" /\
                  status d' = status d /\ meta d' = meta d
             else d' = d)
    [Sample.invoice; Sample.blob] (db (snd r)) /\
  calls (snd r) = [].
Proof.
  intros w r.
  apply (empty_text_persisted Sample.container "s" Sample.blob w Sample.note);
    [reflexivity | reflexivity | reflexivity | left; reflexivity].
Defined.


End ExtractionSamples.

(** ** The ingestion run *)

Section Ingestion.
Import PyStr OsPath Receiver.

Variable os : os_path.
Variable sid : string.

Lemma find_app_Some {A} (p : A -> bool) l l' x :
  List.find p l = Some x -> List.find p (l ++ l')%list = Some x.
Proof.
  induction l as [|a l IH]; [discriminate|].
  cbn [List.find app]. destruct (p a); [trivial | exact IH].
Qed.

Lemma find_app_None {A} (p : A -> bool) l l' :
  List.find p l = None -> List.find p (l ++ l')%list = List.find p l'.
Proof.
  induction l as [|a l IH]; [reflexivity|].
  cbn [List.find app]. destruct (p a); [discriminate | exact IH].
Qed.

(** A blob that has its row: the table stays, and the entry is the row's
    with status [exists] (or the error of the query). *)
Lemma ingest_blob_existing e i blob db d :
  find_existing e os sid db blob = Some d ->
  ingest_blob e os sid i blob db =
  (db, match query_first e i with
       | Ok _ => existing_entry d
       | Raise x => ErrorEntry blob "error" (str_exn x)
       end).
Proof.
  unfold find_existing, ingest_blob. cbv zeta. intros ->.
  now destruct (query_first e i).
Qed.

Lemma ingest_loop_existing e blobs : forall i db acc,
  Forall (fun blob => is_Some (find_existing e os sid db blob)) blobs ->
  fst (ingest_loop e os sid i blobs db acc) = db /\
  ((forall j, query_first e j = Ok tt) ->
   exists rs,
     snd (ingest_loop e os sid i blobs db acc) = (acc ++ rs)%list /\
     Forall2 (fun blob r =>
                exists d, find_existing e os sid db blob = Some d /\
                          r = existing_entry d) blobs rs).
Proof.
  induction blobs as [|blob rest IH]; intros i db acc Hall.
  - split; [reflexivity|]. intros _. exists []. split; [|constructor].
    cbn. now rewrite app_nil_r.
  - apply Forall_cons in Hall as [[d Hd] Hrest].
    cbn [ingest_loop]. rewrite (ingest_blob_existing _ _ _ _ _ Hd).
    destruct (IH (S i) db
                (acc ++ [match query_first e i with
                         | Ok _ => existing_entry d
                         | Raise x => ErrorEntry blob "error" (str_exn x)
                         end])%list Hrest) as [Hdb Hres].
    split; [exact Hdb|]. intros Hq.
    destruct (Hres Hq) as (rs & Hrs & Hall2).
    exists (existing_entry d :: rs). split.
    + rewrite Hrs, Hq, <- app_assoc. reflexivity.
    + constructor; [eauto | exact Hall2].
Qed.

Lemma matches_new e file_name kind i url :
  matches file_name sid kind
    {| doc_id := uuid4 e i; doc_name := file_name; doc_type := Some kind;
       status := Some "RECEIVED"; azure_blob_url := Some url;
       created_at := Some (utcnow e i); updated_at := None;
       session_id := sid;
       extracted_text := None; entity_list := None |} = true.
Proof. unfold matches. cbn. now rewrite !String.eqb_refl. Qed.

(** The table only grows, and with a working database the blob has a row
    afterwards. *)
Lemma ingest_blob_grows e i blob db :
  exists new, fst (ingest_blob e os sid i blob db) = (db ++ new)%list.
Proof.
  unfold ingest_blob. cbv zeta.
  destruct (query_first e i); [|exists []; cbn; now rewrite app_nil_r].
  destruct (List.find _ db); [exists []; cbn; now rewrite app_nil_r|].
  destruct (commit e i); [eexists; reflexivity|].
  exists []; cbn; now rewrite app_nil_r.
Qed.

Lemma ingest_blob_records e i blob db :
  query_first e i = Ok tt -> commit e i = Ok tt ->
  is_Some (find_existing e os sid (fst (ingest_blob e os sid i blob db)) blob).
Proof.
  intros Hq Hc. unfold find_existing, ingest_blob. cbv zeta. rewrite Hq.
  destruct (List.find _ db) as [d|] eqn:E.
  - cbn. rewrite E. eauto.
  - rewrite Hc. cbn [fst]. rewrite (find_app_None _ _ _ E).
    cbn [List.find]. rewrite matches_new. eauto.
Qed.

Lemma ingest_loop_grows e blobs : forall i db acc,
  exists new, fst (ingest_loop e os sid i blobs db acc) = (db ++ new)%list.
Proof.
  induction blobs as [|blob rest IH]; intros i db acc.
  - exists []. cbn. now rewrite app_nil_r.
  - cbn [ingest_loop].
    destruct (ingest_blob_grows e i blob db) as [n1 H1].
    destruct (ingest_blob e os sid i blob db) as [db' r]. cbn [fst] in H1.
    destruct (IH (S i) db' (acc ++ [r])%list) as [n2 H2].
    exists (n1 ++ n2)%list. now rewrite H2, H1, app_assoc.
Qed.

Lemma find_existing_grows e db new blob :
  is_Some (find_existing e os sid db blob) ->
  is_Some (find_existing e os sid (db ++ new)%list blob).
Proof.
  unfold find_existing. cbv zeta. intros [d Hd].
  rewrite (find_app_Some _ _ _ _ Hd). eauto.
Qed.

Lemma ingest_loop_records e blobs : forall i db acc,
  (forall j, query_first e j = Ok tt) -> (forall j, commit e j = Ok tt) ->
  Forall (fun blob =>
            is_Some (find_existing e os sid
                       (fst (ingest_loop e os sid i blobs db acc)) blob)) blobs.
Proof.
  induction blobs as [|blob rest IH]; intros i db acc Hq Hc; [constructor|].
  cbn [ingest_loop].
  pose proof (ingest_blob_records e i blob db (Hq i) (Hc i)) as Hrec.
  destruct (ingest_blob e os sid i blob db) as [db' r]. cbn [fst] in Hrec.
  constructor.
  - destruct (ingest_loop_grows e rest (S i) db' (acc ++ [r])%list) as [new ->].
    now apply find_existing_grows.
  - now apply IH.
Qed.

Lemma existing_entries_status e db blobs rs :
  Forall2 (fun blob r =>
             exists d, find_existing e os sid db blob = Some d /\
                       r = existing_entry d) blobs rs ->
  Forall (fun r => entry_status r = "exists") rs /\
  List.length rs = List.length blobs.
Proof.
  induction 1 as [|blob r blobs rs (d & _ & ->) _ [IH1 IH2]];
    [split; [constructor | reflexivity]|].
  split; [constructor; [reflexivity | exact IH1] | cbn; now rewrite IH2].
Qed.

Lemma ingest_no_new_blobs e db blobs failure :
  list_blobs e (sid ++ "/") = (blobs, failure) ->
  Forall (fun blob => is_Some (find_existing e os sid db blob)) blobs ->
  snd (process_session_documents e os sid db) = db /\
  ((forall j, query_first e j = Ok tt) -> failure = None ->
   exists msg results,
     fst (process_session_documents e os sid db) = Ok (msg, results) /\
     Forall2 (fun blob r =>
                exists d, find_existing e os sid db blob = Some d /\
                          r = existing_entry d) blobs results /\
     Forall (fun r => entry_status r = "exists") results /\
     List.length results = List.length blobs).
Proof.
  intros Hl Hall. unfold process_session_documents. rewrite Hl.
  destruct (ingest_loop_existing e blobs 0 db [] Hall) as [Hdb Hres].
  destruct (ingest_loop e os sid 0 blobs db []) as [db' results].
  cbn [fst snd] in Hdb, Hres. subst db'.
  split; [now destruct failure|].
  intros Hq ->. destruct (Hres Hq) as (rs & -> & Hall2). cbn [app fst].
  eexists _, rs. split; [reflexivity|]. split; [exact Hall2|].
  exact (existing_entries_status _ _ _ _ Hall2).
Qed.

(** C7: ingestion is idempotent.  When every listed blob already has a row
    for its session, name and kind, the run leaves the table as it is, and,
    the existence queries answering, it returns for each blob the entry of
    its row with status [exists].  In particular a second run over the same
    listing, after a first run whose queries and commits worked, creates
    and changes nothing and reports [exists] for every blob. *)
Theorem ingestion_idempotent :
  (forall e i blob db d,
      find_existing e os sid db blob = Some d ->
      query_first e i = Ok tt ->
      ingest_blob e os sid i blob db = (db, existing_entry d) /\
      entry_status (existing_entry d) = "exists") /\
  (forall e db blobs failure,
      list_blobs e (sid ++ "/") = (blobs, failure) ->
      Forall (fun blob => is_Some (find_existing e os sid db blob)) blobs ->
      snd (process_session_documents e os sid db) = db /\
      ((forall j, query_first e j = Ok tt) -> failure = None ->
       exists msg results,
         fst (process_session_documents e os sid db) = Ok (msg, results) /\
         Forall2 (fun blob r =>
                    exists d, find_existing e os sid db blob = Some d /\
                              r = existing_entry d) blobs results /\
         Forall (fun r => entry_status r = "exists") results /\
         List.length results = List.length blobs)) /\
  (forall e e' db blobs,
      list_blobs e (sid ++ "/") = (blobs, None) ->
      list_blobs e' (sid ++ "/") = (blobs, None) ->
      basename e' = basename e ->
      (forall j, query_first e j = Ok tt) -> (forall j, commit e j = Ok tt) ->
      (forall j, query_first e' j = Ok tt) ->
      let db1 := snd (process_session_documents e os sid db) in
      snd (process_session_documents e' os sid db1) = db1 /\
      exists msg results,
        fst (process_session_documents e' os sid db1) = Ok (msg, results) /\
        Forall (fun r => entry_status r = "exists") results /\
        List.length results = List.length blobs).
Proof.
  split.
  { intros e i blob db d Hd Hq.
    rewrite (ingest_blob_existing _ _ _ _ _ Hd), Hq. now split. }
  split; [exact ingest_no_new_blobs|].
  intros e e' db blobs Hl Hl' Hb Hq Hc Hq'. cbv zeta.
  assert (Hall : Forall (fun blob =>
                   is_Some (find_existing e' os sid
                              (snd (process_session_documents e os sid db)) blob))
                   blobs).
  { unfold process_session_documents. rewrite Hl.
    pose proof (ingest_loop_records e blobs 0 db [] Hq Hc) as H.
    destruct (ingest_loop e os sid 0 blobs db []) as [db1 rs]. cbn [fst snd] in *.
    unfold find_existing in *. now rewrite Hb. }
  destruct (ingest_no_new_blobs e' _ blobs None Hl' Hall) as [Hdb Hres].
  split; [exact Hdb|].
  destruct (Hres Hq' eq_refl) as (msg & results & H1 & _ & H2 & H3).
  now exists msg, results.
Qed.

End Ingestion.

Section IngestionSamples.
Import OsPath Receiver.

Lemma ingestion_idempotent_witness :
  let db1 := snd (process_session_documents Sample.storage posixpath "s" []) in
  (snd (process_session_documents Sample.storage posixpath "s" db1) = db1 /\
   exists msg results,
     fst (process_session_documents Sample.storage posixpath "s" db1) =
       Ok (msg, results) /\
     Forall (fun r => entry_status r = "exists") results /\
     List.length results = 3) /\
  snd (process_session_documents Sample.storage posixpath "s"
         [Sample.invoice; Sample.mail; Sample.blob]) =
    [Sample.invoice; Sample.mail; Sample.blob] /\
  fst (ingest_blob Sample.storage posixpath "s" 0 "s/invoice.pdf" [Sample.invoice]) =
    [Sample.invoice].
Proof.
  destruct (ingestion_idempotent posixpath "s") as (Hblob & Hall & Hrerun).
  split; [|split].
  - apply Hrerun
      with (e := Sample.storage) (e' := Sample.storage) (db := [])
           (blobs := ["s/invoice.pdf"; "s/Email_1.txt"; "s/data.bin"]);
      reflexivity.
  - apply (Hall Sample.storage _
             ["s/invoice.pdf"; "s/Email_1.txt"; "s/data.bin"] None);
      [reflexivity|].
    repeat constructor; vm_compute; eauto.
  - rewrite (proj1 (Hblob Sample.storage 0 "s/invoice.pdf" [Sample.invoice]
                      Sample.invoice eq_refl eq_refl)).
    reflexivity.
Defined.

End IngestionSamples.

(** * Further properties of the code *)

(** ** The extraction run, continued *)

Section ExtractionRunMore.
Import PyStr Extractor.

Variable e : env.
Variable sid : string.

Lemma process_document_ok doc w w' :
  process_document e sid doc w = (Ok tt, w') ->
  exists r el, db w' = committed e doc r el (db w) /\
               temp w' = Some (<[doc_name doc :=
                                   match download_blob e (sid ++ "/" ++ doc_name doc) with
                                   | Ok data => data
                                   | Raise _ => empty_file
                                   end]> (default ∅ (temp w))).
Proof.
  pose proof (process_document_cases e sid doc w) as H. cbv zeta in H.
  destruct (open_local e _) as [u|y]; [|rewrite H; discriminate].
  destruct (download_blob e _) as [data|y]; [|rewrite H; discriminate].
  destruct (extract _ _ _) as [text|y]; [|rewrite H; discriminate].
  destruct (commit e (doc_id doc)); rewrite H; [|discriminate].
  intros [= <-].
  destruct (truthy text); eexists _, _;
    (split; [reflexivity | cbn; now rewrite insert_insert_eq]).
Qed.

Lemma process_document_db doc w :
  db (snd (process_document e sid doc w)) = db w \/
  exists r el, db (snd (process_document e sid doc w)) = committed e doc r el (db w).
Proof.
  destruct (process_document e sid doc w) as [[[]|x] w'] eqn:E; cbn [snd].
  - right. destruct (process_document_ok _ _ _ E) as (r & el & H & _). eauto.
  - left. exact (process_document_raise e sid _ _ _ _ E).
Qed.

Lemma for_each_app body l1 l2 w :
  for_each body (l1 ++ l2)%list w =
  match for_each body l1 w with
  | (Ok _, w1) => for_each body l2 w1
  | (Raise x, w1) => (Raise x, w1)
  end.
Proof.
  revert w; induction l1 as [|doc l1 IH]; intros w; [reflexivity|].
  cbn [app for_each]. unfold bind.
  destruct (body doc w) as [[u|x] w1]; [apply IH | reflexivity].
Qed.

(** X1: A session without rows, and a listing query that raises. *)
Theorem run_without_documents w :
  (query_all e sid = Ok tt ->
   filter (fun d => session_id d = sid) (db w) = [] ->
   process_session_documents e sid w =
   (Ok ("success", "All documents for session " ++ sid ++ " processed successfully"),
    w)) /\
  (forall x,
      query_all e sid = Raise x ->
      process_session_documents e sid w =
      (Raise (Exception ("Failed to process session: " ++ str_exn x)), w)).
Proof.
  unfold process_session_documents, try_except, bind, query_session, raise, ret.
  split.
  - intros -> ->. reflexivity.
  - intros x ->. reflexivity.
Qed.

(** X2: The first document that fails ends the run: the state is the one that
    document left, and the documents after it are not handled. *)
Theorem run_stops_at_first_failure w before doc after w1 x w2 :
  query_all e sid = Ok tt ->
  filter (fun d => session_id d = sid) (db w) = (before ++ doc :: after)%list ->
  for_each (process_document e sid) before w = (Ok tt, w1) ->
  process_document e sid doc w1 = (Raise x, w2) ->
  process_session_documents e sid w =
  (Raise (Exception ("Failed to process session: " ++ str_exn x)), w2) /\
  db w2 = db w1.
Proof.
  intros Hq Hf Hb Hd.
  unfold process_session_documents, try_except, bind, query_session, raise, ret.
  rewrite Hq, Hf, for_each_app, Hb. cbn [for_each]. unfold bind. rewrite Hd.
  split; [reflexivity | exact (process_document_raise e sid _ _ _ _ Hd)].
Qed.

Lemma Forall2_diag {A} (R : A -> A -> Prop) (l : list A) :
  (forall x, x ∈ l -> R x x) -> Forall2 R l l.
Proof.
  induction l as [|a l IH]; intros H; constructor.
  - apply H. constructor.
  - apply IH. intros x Hx. apply H. now constructor.
Qed.

Lemma Forall2_map_l_in {A B} (g : A -> A) (R R' : A -> B -> Prop) l l' :
  (forall d d', d ∈ l -> R (g d) d' -> R' d d') ->
  Forall2 R (map g l) l' -> Forall2 R' l l'.
Proof.
  revert l'; induction l as [|a l IH]; intros l' H H2; inversion H2; subst;
    constructor.
  - apply H; [constructor | assumption].
  - apply IH; [|assumption]. intros d d' Hd. apply H. now constructor.
Qed.

Lemma Forall2_Forall_r_in {A B} (R : A -> B -> Prop) (Q : B -> Prop) l l' :
  (forall d d', d ∈ l -> R d d' -> Q d') -> Forall2 R l l' -> Forall Q l'.
Proof.
  intros H H2. induction H2 as [|a b l l' Hab _ IH]; constructor.
  - apply (H a); [constructor | exact Hab].
  - apply IH. intros d d' Hd. apply H. now constructor.
Qed.

Lemma meta_ids d d' :
  meta d' = meta d -> doc_id d' = doc_id d /\ session_id d' = session_id d.
Proof. unfold meta. now intros [= -> _ _ _ _ _ ->]. Qed.

(** A row counts as populated when both columns of the run are set. *)
Lemma for_each_populates doc_list : forall w w',
  for_each (process_document e sid) doc_list w = (Ok tt, w') ->
  Forall2 (fun d d' =>
             meta d' = meta d /\
             (is_Some (extracted_text d) /\ is_Some (entity_list d) ->
              is_Some (extracted_text d') /\ is_Some (entity_list d')) /\
             (doc_id d ∈ map doc_id doc_list ->
              is_Some (extracted_text d') /\ is_Some (entity_list d')))
    (db w) (db w').
Proof.
  induction doc_list as [|doc rest IH]; intros w w'.
  - intros [= <-]. apply Forall2_diag. intros d _.
    split; [reflexivity|]. split; [trivial|]. intros H. inversion H.
  - cbn [for_each]. unfold bind.
    destruct (process_document e sid doc w) as [[[]|x] w1] eqn:E; [|discriminate].
    intros Hrest. apply IH in Hrest.
    destruct (process_document_ok _ _ _ E) as (r & el & Hdb & _).
    rewrite Hdb in Hrest. unfold committed in Hrest.
    revert Hrest. apply Forall2_map_l_in. intros d d' _ (Hm & Hp & Hi).
    destruct (String.eqb (doc_id d) (doc_id doc)) eqn:Eid.
    + split; [now rewrite Hm|]. split; intros _; apply Hp; cbn; eauto.
    + split; [exact Hm|]. split; [exact Hp|].
      cbn [map]. intros Hin. apply elem_of_cons in Hin as [Heq|Hin].
      * apply String.eqb_neq in Eid. contradiction.
      * now apply Hi.
Qed.

(** X3: A run that returns has set the text and the entity list of every row
    of the session. *)
Theorem run_success_populates w r w' :
  process_session_documents e sid w = (Ok r, w') ->
  Forall (fun d => session_id d = sid ->
                   is_Some (extracted_text d) /\ is_Some (entity_list d))
    (db w').
Proof.
  unfold process_session_documents, try_except, bind, query_session, raise, ret.
  destruct (query_all e sid); [|discriminate].
  destruct (for_each _ _ w) as [[[]|x] w1] eqn:E; [|discriminate].
  intros [= _ <-]. apply for_each_populates in E.
  revert E. apply Forall2_Forall_r_in. intros d d' Hd (Hm & _ & Hi) Hs.
  apply Hi. apply meta_ids in Hm as [_ Hm].
  apply list_elem_of_In, in_map, list_elem_of_In.
  apply list_elem_of_filter. split; [congruence | exact Hd].
Qed.

Lemma NoDup_map_inj_on {A B} (f : A -> B) (l : list A) x y :
  NoDup (map f l) -> x ∈ l -> y ∈ l -> f x = f y -> x = y.
Proof.
  induction l as [|a l IH]; intros Hnd Hx Hy Hf; [inversion Hx|].
  cbn [map] in Hnd. apply NoDup_cons in Hnd as [Ha Hnd].
  apply elem_of_cons in Hx as [->|Hx]; apply elem_of_cons in Hy as [->|Hy];
    try reflexivity; try (now apply IH); exfalso; apply Ha.
  - rewrite Hf. now apply list_elem_of_In, in_map, list_elem_of_In.
  - rewrite <- Hf. now apply list_elem_of_In, in_map, list_elem_of_In.
Qed.

Lemma for_each_foreign doc_list : forall w,
  (forall doc d, doc ∈ doc_list -> d ∈ db w ->
                 doc_id d = doc_id doc -> session_id d = sid) ->
  Forall2 (fun d d' => meta d' = meta d /\ (session_id d <> sid -> d' = d))
    (db w) (db (snd (for_each (process_document e sid) doc_list w))).
Proof.
  induction doc_list as [|doc rest IH]; intros w H.
  - apply Forall2_diag. now intros d _.
  - cbn [for_each]. unfold bind.
    destruct (process_document e sid doc w) as [[[]|x] w1] eqn:E.
    + destruct (process_document_ok _ _ _ E) as (r & el & Hdb & _).
      assert (H1 : forall doc' d1, doc' ∈ rest -> d1 ∈ db w1 ->
                     doc_id d1 = doc_id doc' -> session_id d1 = sid).
      { intros doc' d1 Hdoc Hd1 Hid. rewrite Hdb in Hd1. unfold committed in Hd1.
        apply list_elem_of_In, in_map_iff in Hd1 as (d & <- & Hd).
        apply list_elem_of_In in Hd.
        destruct (String.eqb (doc_id d) (doc_id doc)); cbn in *;
          apply (H doc' d); auto; now constructor. }
      specialize (IH w1 H1). rewrite Hdb in IH at 1. unfold committed in IH.
      revert IH. apply Forall2_map_l_in. intros d d' Hd (Hm & Hs).
      destruct (String.eqb (doc_id d) (doc_id doc)) eqn:Eid.
      * apply String.eqb_eq in Eid.
        split; [now rewrite Hm|]. intros Hne. exfalso. apply Hne.
        apply (H doc d); [constructor | exact Hd | exact Eid].
      * split; [exact Hm | exact Hs].
    + cbn [snd]. rewrite (process_document_raise e sid _ _ _ _ E).
      apply Forall2_diag. now intros d _.
Qed.

(** X4: With distinct primary keys, a run changes no row of another session. *)
Theorem run_leaves_other_sessions w :
  NoDup (map doc_id (db w)) ->
  Forall2 (fun d d' => session_id d <> sid -> d' = d)
    (db w) (db (snd (process_session_documents e sid w))).
Proof.
  intros Hnd.
  assert (G : Forall2 (fun d d' => meta d' = meta d /\ (session_id d <> sid -> d' = d))
                (db w) (db (snd (process_session_documents e sid w)))).
  { unfold process_session_documents, try_except, bind, query_session, raise, ret.
    destruct (query_all e sid); [|apply Forall2_diag; now intros d _].
    pose proof (for_each_foreign (filter (fun d => session_id d = sid) (db w)) w) as H.
    destruct (for_each _ _ w) as [[[]|x] w1]; cbn [snd] in *; apply H;
      intros doc d Hdoc Hd Hid; apply list_elem_of_filter in Hdoc as [Hs Hdoc];
      now rewrite (NoDup_map_inj_on doc_id (db w) d doc Hnd Hd Hdoc Hid). }
  eapply Forall2_impl; [exact G|]. now intros d d' [_ H].
Qed.

(** X5: A document with text: on the row of the document the text is
    written as extracted, unrefined, with the entity list of the stub, the
    other rows being left as they are, after one call to each
    collaborator. *)
Theorem text_persisted_as_extracted doc w data text :
  open_local e (doc_name doc) = Ok tt ->
  download_blob e (sid ++ "/" ++ doc_name doc) = Ok data ->
  extract (<[doc_name doc := data]> (default ∅ (temp w)))
    (doc_type doc) (doc_name doc) = Ok text ->
  text <> "" ->
  commit e (doc_id doc) = Ok tt ->
  let r := process_document e sid doc w in
  fst r = Ok tt /\
  Forall2 (fun d d' =>
             if String.eqb (doc_id d) (doc_id doc)
             then extracted_text d' = Some text /\
                  entity_list d' =
                    Some ("Person: John Doe" ++ nl ++ "Organization: Acme Inc.") /\
                  status d' = status d /\ meta d' = meta d
             else d' = d)
    (db w) (db (snd r)) /\
  calls (snd r) = (calls w ++ [Refine text; Entities text])%list.
Proof.
  intros Ho Hd Hx Ht Hc. cbv zeta.
  pose proof (process_document_cases e sid doc w) as H. cbv zeta in H.
  rewrite Ho, Hd in H. rewrite insert_insert_eq, Hx, Hc in H. rewrite H.
  destruct text; [contradiction|].
  cbn [truthy fst snd db calls set_db set_temp log_call].
  split; [reflexivity|]. split; [apply committed_rows|].
  now rewrite <- app_assoc.
Qed.

End ExtractionRunMore.

(** ** The staging directory and [main], continued *)

Section StagingMore.
Import PyStr Extractor.

Variable e : env.

Lemma process_document_temp sid doc w name :
  is_Some (default ∅ (temp w) !! name) ->
  is_Some (default ∅ (temp (snd (process_document e sid doc w))) !! name).
Proof.
  intros Hw.
  assert (Hi : forall f, is_Some (<[doc_name doc := f]> (default ∅ (temp w)) !! name)).
  { intros f. apply lookup_insert_is_Some.
    destruct (decide (doc_name doc = name)); [now left | now right]. }
  pose proof (process_document_cases e sid doc w) as H. cbv zeta in H.
  destruct (open_local e _) as [u|y]; [|now rewrite H].
  destruct (download_blob e _) as [data|y]; [|rewrite H; apply Hi].
  rewrite insert_insert_eq in H.
  destruct (extract _ _ _) as [text|y]; [|rewrite H; apply Hi].
  destruct (commit e (doc_id doc)); rewrite H; destruct (truthy text); apply Hi.
Qed.

Lemma for_each_keeps_staged sid name doc_list : forall w,
  is_Some (default ∅ (temp w) !! name) ->
  is_Some (default ∅ (temp (snd (for_each (process_document e sid) doc_list w)))
             !! name).
Proof.
  induction doc_list as [|doc rest IH]; intros w Hw; [exact Hw|].
  cbn [for_each]. unfold bind.
  pose proof (process_document_temp sid doc w name Hw) as H1.
  destruct (process_document e sid doc w) as [[u|x] w1]; cbn [snd] in *;
    [now apply IH | exact H1].
Qed.

(** X7: A run removes no staged file: what was in [temp] before is there
    afterwards, possibly overwritten. *)
Theorem run_keeps_staged_files sid w name :
  is_Some (default ∅ (temp w) !! name) ->
  is_Some (default ∅ (temp (snd (process_session_documents e sid w))) !! name).
Proof.
  intros Hw.
  unfold process_session_documents, try_except, bind, query_session, raise, ret.
  destruct (query_all e sid); [|exact Hw].
  pose proof (for_each_keeps_staged sid name
                (filter (fun d => session_id d = sid) (db w)) w Hw) as H.
  destruct (for_each _ _ w) as [[u|x] w1]; exact H.
Qed.


(** X8: A line that reads [exit], in any letter case, ends [main]: what is
    typed after it plays no part. *)
Theorem main_ends_at_exit before line after w :
  lower line = "exit" ->
  main e (before ++ line :: after) w = main e before w.
Proof.
  intros Hx. unfold main. f_equal.
  revert w; induction before as [|sid rest IH]; intros w; cbn [app main_loop].
  - now rewrite Hx.
  - destruct (String.eqb (lower sid) "exit"); [reflexivity | apply IH].
Qed.

Lemma main_loop_meta lines : forall w,
  map meta (db (main_loop e lines w)) = map meta (db w).
Proof.
  induction lines as [|sid rest IH]; intros w; [reflexivity|].
  cbn [main_loop]. destruct (String.eqb (lower sid) "exit"); [reflexivity|].
  now rewrite IH, run_meta.
Qed.

(** X9: Whatever is typed, [main] ends with the staging directory removed and
    with every row's key, name, kind, status, URL, creation time and session
    as they were: only the text, the entity list and [updated_at] can
    differ. *)
Theorem main_keeps_rows_but_extraction lines w :
  map meta (db (main e lines w)) = map meta (db w) /\
  temp (main e lines w) = None /\
  List.length (db (main e lines w)) = List.length (db w).
Proof.
  assert (H : map meta (db (main e lines w)) = map meta (db w)).
  { unfold main, cleanup. rewrite <- (main_loop_meta lines w).
    now destruct (temp (main_loop e lines w)). }
  split; [exact H|]. split; [apply cleanup_removes|].
  now rewrite <- (length_map meta), H, length_map.
Qed.

End StagingMore.

Section ExtractionWitnessesMore.
Import Extractor.

Lemma run_without_documents_witness :
  Extractor.process_session_documents Sample.container "other"
    (Sample.table [Sample.invoice]) =
  (Ok ("success", "All documents for session other processed successfully"),
   Sample.table [Sample.invoice]).
Proof.
  apply (proj1 (run_without_documents Sample.container "other"
                  (Sample.table [Sample.invoice]))); reflexivity.
Defined.

Lemma run_stops_at_first_failure_witness :
  fst (process_session_documents Sample.container "s"
         (Sample.table [Sample.invoice; Sample.report; Sample.blob])) =
  Raise (Exception "Failed to process session: BlobNotFound").
Proof.
  pose (w := Sample.table [Sample.invoice; Sample.report; Sample.blob]).
  pose (w1 := snd (process_document Sample.container "s" Sample.invoice w)).
  pose (w2 := snd (process_document Sample.container "s" Sample.report w1)).
  destruct (run_stops_at_first_failure Sample.container "s" w
              [Sample.invoice] Sample.report [Sample.blob] w1
              (Exception "BlobNotFound") w2) as [H _];
    [reflexivity | reflexivity | vm_compute; reflexivity
    | vm_compute; reflexivity |].
  fold w. now rewrite H.
Defined.

Lemma run_success_populates_witness :
  Forall (fun d => session_id d = "s" ->
                   is_Some (extracted_text d) /\ is_Some (entity_list d))
    (db (snd (process_session_documents Sample.container "s"
                (Sample.table [Sample.invoice; Sample.blob])))).
Proof.
  eapply (run_success_populates Sample.container "s"
            (Sample.table [Sample.invoice; Sample.blob])).
  vm_compute. reflexivity.
Defined.

Lemma run_leaves_other_sessions_witness :
  Forall2 (fun d d' => session_id d <> "t" -> d' = d)
    [Sample.invoice; Sample.blob]
    (db (snd (process_session_documents Sample.container "t"
                (Sample.table [Sample.invoice; Sample.blob])))).
Proof.
  apply (run_leaves_other_sessions Sample.container "t"
           (Sample.table [Sample.invoice; Sample.blob])).
  cbn. repeat constructor; rewrite ?elem_of_cons, ?elem_of_nil; intuition discriminate.
Defined.

Lemma text_persisted_as_extracted_witness :
  let r := process_document Sample.container "s" Sample.invoice
             (Sample.table [Sample.invoice; Sample.blob]) in
  fst r = Ok tt /\
  Forall2 (fun d d' =>
             if String.eqb (doc_id d) "2"
             then extracted_text d' = Some "Invoice 42" /\
                  entity_list d' =
                    Some ("Person: John Doe" ++ nl ++ "Organization: Acme Inc.") /\
                  status d' = status d /\ meta d' = meta d
             else d' = d)
    [Sample.invoice; Sample.blob] (db (snd r)) /\
  calls (snd r) = [Refine "Invoice 42"; Entities "Invoice 42"].
Proof.
  apply (text_persisted_as_extracted Sample.container "s" Sample.invoice
           (Sample.table [Sample.invoice; Sample.blob]) Sample.scan "Invoice 42");
    [reflexivity | reflexivity | vm_compute; reflexivity | discriminate
    | reflexivity].
Defined.

Lemma run_keeps_staged_files_witness :
  let w := snd (process_session_documents Sample.container "s"
                  (Sample.table [Sample.invoice])) in
  is_Some (default ∅ (temp (snd (process_session_documents Sample.container "t" w)))
             !! "invoice.pdf").
Proof.
  intros w. apply run_keeps_staged_files. vm_compute. eauto.
Defined.


Lemma main_ends_at_exit_witness :
  main Sample.container ["s"; "EXIT"; "t"] (Sample.table [Sample.invoice]) =
  main Sample.container ["s"] (Sample.table [Sample.invoice]).
Proof.
  apply (main_ends_at_exit Sample.container ["s"] "EXIT" ["t"]). reflexivity.
Defined.

End ExtractionWitnessesMore.

(** ** The ingestion run, continued *)

Section IngestionMore.
Import PyStr OsPath Receiver.

Variable os : os_path.
Variable sid : string.

Abbreviation fresh_row := (Shape.fresh_row os sid).
Abbreviation successes := Shape.successes.

Lemma ingest_blob_step e i blob db :
  let '(db', r) := ingest_blob e os sid i blob db in
  (db' = db /\ (entry_status r = "exists" \/ entry_status r = "error")) \/
  (exists d, db' = (db ++ [d])%list /\ fresh_row d /\
             find_existing e os sid db blob = None /\
             Shape.key d = (basename e blob, sid,
                            Some (get_generic_doc_type os (basename e blob))) /\
             entry_status r = "success").
Proof.
  unfold ingest_blob, find_existing. cbv zeta.
  destruct (query_first e i); [|left; auto].
  destruct (List.find _ db) as [d|]; [left; auto|].
  destruct (commit e i); [|left; auto].
  right. eexists. split; [reflexivity|].
  split; [|auto]. unfold Shape.fresh_row. cbn. auto.
Qed.

Lemma ingest_loop_shape e blobs : forall i db acc,
  let '(db', results) := ingest_loop e os sid i blobs db acc in
  exists new rs,
    db' = (db ++ new)%list /\ results = (acc ++ rs)%list /\
    Forall fresh_row new /\
    List.length rs = List.length blobs /\
    Forall (fun r => entry_status r = "exists" \/ entry_status r = "success" \/
                     entry_status r = "error") rs /\
    successes rs = List.length new.
Proof.
  induction blobs as [|blob rest IH]; intros i db acc.
  - exists [], []. rewrite !app_nil_r. repeat split; constructor.
  - cbn [ingest_loop].
    pose proof (ingest_blob_step e i blob db) as Hs.
    destruct (ingest_blob e os sid i blob db) as [db1 r].
    specialize (IH (S i) db1 (acc ++ [r])%list).
    destruct (ingest_loop e os sid (S i) rest db1 (acc ++ [r])%list) as [db' results].
    destruct IH as (new & rs & -> & -> & Hnew & Hlen & Hst & Hcount).
    destruct Hs as [[-> Hr]|(d & -> & Hd & _ & _ & Hr)].
    + exists new, (r :: rs). rewrite <- app_assoc.
      split; [reflexivity|]. split; [reflexivity|]. split; [exact Hnew|].
      split; [cbn; now rewrite Hlen|].
      split; [constructor; [tauto | exact Hst]|].
      unfold Shape.successes in *. cbn [List.filter].
      destruct Hr as [-> | ->]; exact Hcount.
    + exists (d :: new), (r :: rs). rewrite <- !app_assoc.
      split; [reflexivity|]. split; [reflexivity|].
      split; [now constructor|].
      split; [cbn; now rewrite Hlen|].
      split; [constructor; [tauto | exact Hst]|].
      unfold Shape.successes in *. cbn [List.filter]. rewrite Hr. cbn.
      now rewrite Hcount.
Qed.

(** X16: The table is only appended to: no row is changed or removed, whatever
    fails; each new row is a RECEIVED row of the session with no text, and
    there is one for each [success] entry. *)
Theorem ingestion_only_appends e db :
  exists new,
    snd (process_session_documents e os sid db) = (db ++ new)%list /\
    Forall fresh_row new /\
    List.length new <= List.length (fst (list_blobs e (sid ++ "/"))) /\
    (forall msg results,
        fst (process_session_documents e os sid db) = Ok (msg, results) ->
        successes results = List.length new).
Proof.
  unfold process_session_documents.
  destruct (list_blobs e (sid ++ "/")) as [blobs failure].
  pose proof (ingest_loop_shape e blobs 0 db []) as H.
  destruct (ingest_loop e os sid 0 blobs db []) as [db' results].
  destruct H as (new & rs & -> & -> & Hnew & Hlen & Hst & Hcount).
  exists new. cbn [fst].
  assert (Hle : List.length new <= List.length blobs).
  { rewrite <- Hcount, <- Hlen. unfold Shape.successes. apply List.filter_length_le. }
  destruct failure; cbn [fst snd]; repeat split; auto; try discriminate.
  intros msg results [= _ <-]. exact Hcount.
Qed.

(** X17: When the listing works the run returns, whatever the queries and the
    commits do: one entry per blob listed, each [exists], [success] or
    [error], and the message counts them. *)
Theorem ingestion_one_entry_per_blob e db blobs :
  list_blobs e (sid ++ "/") = (blobs, None) ->
  exists results,
    fst (process_session_documents e os sid db) =
      Ok ("Processed " ++ pretty (List.length blobs) ++
          " documents for session " ++ sid, results) /\
    List.length results = List.length blobs /\
    Forall (fun r => entry_status r = "exists" \/ entry_status r = "success" \/
                     entry_status r = "error") results.
Proof.
  intros Hl. unfold process_session_documents. rewrite Hl.
  pose proof (ingest_loop_shape e blobs 0 db []) as H.
  destruct (ingest_loop e os sid 0 blobs db []) as [db' results].
  destruct H as (new & rs & -> & -> & Hnew & Hlen & Hst & Hcount).
  exists rs. cbn [fst app]. now rewrite Hlen.
Qed.

Lemma matches_key file_name kind d :
  matches file_name sid kind d = true <->
  Shape.key d = (file_name, sid, Some kind).
Proof.
  unfold matches, Shape.key. split.
  - intros H. apply andb_true_iff in H as [H H3].
    apply andb_true_iff in H as [H1 H2].
    apply String.eqb_eq in H1, H2. destruct (doc_type d); [|discriminate].
    apply String.eqb_eq in H3. congruence.
  - intros [= -> -> ->]. now rewrite !String.eqb_refl.
Qed.

Lemma find_none_key e db blob :
  find_existing e os sid db blob = None ->
  (basename e blob, sid, Some (get_generic_doc_type os (basename e blob)))
    ∉ map Shape.key db.
Proof.
  unfold find_existing. cbv zeta. intros Hf Hin.
  apply list_elem_of_In, in_map_iff in Hin as (d & Hk & Hd).
  apply (List.find_none _ _ Hf) in Hd. apply matches_key in Hk. congruence.
Qed.

Lemma ingest_loop_nodup e blobs : forall i db acc,
  NoDup (map Shape.key db) ->
  NoDup (map Shape.key (fst (ingest_loop e os sid i blobs db acc))).
Proof.
  induction blobs as [|blob rest IH]; intros i db acc Hnd; [exact Hnd|].
  cbn [ingest_loop].
  pose proof (ingest_blob_step e i blob db) as Hs.
  destruct (ingest_blob e os sid i blob db) as [db1 r].
  apply IH.
  destruct Hs as [[-> _]|(d & -> & _ & Hnone & Hk & _)]; [exact Hnd|].
  rewrite map_app. cbn [map]. apply NoDup_app. split; [exact Hnd|].
  split; [|apply NoDup_singleton].
  intros k Hk1 Hk2. apply list_elem_of_singleton in Hk2. subst k.
  rewrite Hk in Hk1. now apply (find_none_key e db blob).
Qed.

(** X18: Ingestion creates no second row for a name, session and kind: a table
    without such duplicates has none afterwards. *)
Theorem ingestion_keeps_keys_distinct e db :
  NoDup (map Shape.key db) ->
  NoDup (map Shape.key (snd (process_session_documents e os sid db))).
Proof.
  intros Hnd. unfold process_session_documents.
  destruct (list_blobs e (sid ++ "/")) as [blobs failure].
  pose proof (ingest_loop_nodup e blobs 0 db [] Hnd) as H.
  destruct (ingest_loop e os sid 0 blobs db []) as [db' results].
  now destruct failure.
Qed.

End IngestionMore.

(** ** Extensions and the two classifiers, continued *)

Section Extensions.
Import PyStr OsPath.

Lemma rfind_from_lacks c s : forall i last,
  Shape.lacks c s = true -> rfind_from s c i last = last.
Proof.
  induction s as [|d r IH]; intros i last H; [reflexivity|].
  cbn in H. apply andb_true_iff in H as [Hd Hr].
  cbn [rfind_from]. apply negb_true_iff in Hd. rewrite Hd. now apply IH.
Qed.

Lemma rfind_from_last c a x : forall i last,
  Shape.lacks c x = true ->
  rfind_from (a ++ String c x) c i last = (i + Z.of_nat (String.length a))%Z.
Proof.
  induction a as [|d r IH]; intros i last H.
  - change ("" ++ String c x) with (String c x). cbn [rfind_from String.length].
    rewrite Ascii.eqb_refl, rfind_from_lacks by exact H. lia.
  - change (String d r ++ String c x) with (String d (r ++ String c x)).
    cbn [rfind_from String.length]. rewrite IH by exact H. lia.
Qed.

Lemma lacks_app c s t :
  Shape.lacks c (s ++ t) = Shape.lacks c s && Shape.lacks c t.
Proof.
  induction s as [|d r IH]; [reflexivity|].
  change (String d r ++ t) with (String d (r ++ t)). cbn [Shape.lacks].
  now rewrite IH, andb_assoc.
Qed.

Lemma take_app_length a r : take (String.length a) (a ++ r) = a.
Proof.
  induction a as [|c a IH]; [now destruct r|].
  change (String c a ++ r) with (String c (a ++ r)). cbn. now rewrite IH.
Qed.

Lemma drop_app_length a r : drop (String.length a) (a ++ r) = r.
Proof. induction a as [|c a IH]; [reflexivity | exact IH]. Qed.

Lemma drop_next n : forall p c r,
  drop n p = String c r -> drop (S n) p = r.
Proof.
  induction n as [|n IH]; intros p c r H.
  - cbn in H. subst p. reflexivity.
  - destruct p as [|d p]; [discriminate|]. cbn in H. cbn [drop].
    exact (IH _ _ _ H).
Qed.

(** The loop that skips leading dots, on the stretch [s] it runs over. *)
Lemma splitext_loop_stretch p dot s : forall j rest,
  drop j p = s ++ rest ->
  _splitext_loop (String.length s) p (Z.of_nat j) dot =
  if Shape.all_dots s then (p, "")
  else (take (Z.to_nat dot) p, drop (Z.to_nat dot) p).
Proof.
  induction s as [|c s IH]; intros j rest H; [reflexivity|].
  change (String c s ++ rest) with (String c (s ++ rest)) in H.
  cbn [String.length _splitext_loop Shape.all_dots].
  unfold slice1. rewrite Nat2Z.id, H. cbn [take].
  replace (Z.of_nat j + 1)%Z with (Z.of_nat (S j)) by lia.
  rewrite (IH (S j) rest (drop_next _ _ _ _ H)).
  destruct c as [[] [] [] [] [] [] [] []]; reflexivity.
Qed.

(** [splitext] on a name without separators: the extension is what
    follows the last dot, unless only dots precede it. *)
Lemma splitext_plain os a x :
  Shape.plain a = true -> Shape.plain x = true -> Shape.lacks "." x = true ->
  splitext os (a ++ String "." x) =
  if Shape.all_dots a then (a ++ String "." x, "") else (a, String "." x).
Proof.
  unfold Shape.plain. intros Ha Hx Hdot.
  apply andb_true_iff in Ha as [Ha1 Ha2]. apply andb_true_iff in Hx as [Hx1 Hx2].
  assert (Hsl : Shape.lacks "/" (a ++ String "." x) = true)
    by (rewrite lacks_app, Ha1; cbn; exact Hx1).
  assert (Hbs : Shape.lacks "\" (a ++ String "." x) = true)
    by (rewrite lacks_app, Ha2; cbn; exact Hx2).
  assert (Hloop : _splitext_loop (String.length a) (a ++ String "." x) 0
                    (Z.of_nat (String.length a)) =
                  if Shape.all_dots a then (a ++ String "." x, "")
                  else (a, String "." x)).
  { rewrite (splitext_loop_stretch _ _ a 0 (String "." x) eq_refl).
    now rewrite Nat2Z.id, take_app_length, drop_app_length. }
  destruct os; cbn [splitext]; unfold _splitext, rfind;
    rewrite (rfind_from_last "." a x 0 (-1) Hdot), ?(rfind_from_lacks _ _ 0 (-1) Hsl),
      ?(rfind_from_lacks _ _ 0 (-1) Hbs);
    change (Z.max (-1) (-1)) with (-1)%Z; change (-1 + 1)%Z with 0%Z;
    rewrite !Z.add_0_l, Z.sub_0_r, Nat2Z.id;
    (replace (Z.of_nat (String.length a) >? -1)%Z with true
       by (symmetry; apply Z.gtb_lt; lia));
    exact Hloop.
Qed.

Lemma rfind_from_ge c s : forall i last,
  (last <= i)%Z -> (last <= rfind_from s c i last)%Z.
Proof.
  induction s as [|d r IH]; intros i last H; cbn [rfind_from]; [lia|].
  destruct (Ascii.eqb d c).
  - specialize (IH (i + 1)%Z i). lia.
  - specialize (IH (i + 1)%Z last). lia.
Qed.

Lemma splitext_no_dot os p :
  Shape.lacks "." p = true -> splitext os p = (p, "").
Proof.
  intros H.
  assert (Hge : forall c, (-1 <= rfind_from p c 0 (-1))%Z)
    by (intros c; apply rfind_from_ge; lia).
  destruct os; cbn [splitext]; unfold _splitext, rfind;
    rewrite (rfind_from_lacks "." p 0 (-1) H).
  - pose proof (Hge "/"%char) as H1. rewrite Z.gtb_ltb.
    now replace (_ <? -1)%Z with false by (symmetry; apply Z.ltb_ge; lia).
  - pose proof (Hge "\"%char) as H1. pose proof (Hge "/"%char) as H2.
    rewrite Z.gtb_ltb.
    now replace (_ <? -1)%Z with false by (symmetry; apply Z.ltb_ge; lia).
Qed.

Lemma lower_app s t : lower (s ++ t) = lower s ++ lower t.
Proof.
  induction s as [|c s IH]; [reflexivity|].
  change (String c s ++ t) with (String c (s ++ t)). cbn [lower].
  rewrite IH. reflexivity.
Qed.

Lemma lacks_lower c s :
  c = "."%char \/ c = "/"%char \/ c = "\"%char ->
  Shape.lacks c (lower s) = Shape.lacks c s.
Proof.
  intros Hc. induction s as [|d r IH]; [reflexivity|].
  cbn [lower Shape.lacks]. rewrite IH. f_equal. f_equal.
  destruct Hc as [-> | [-> | ->]];
    destruct d as [[] [] [] [] [] [] [] []]; reflexivity.
Qed.

Lemma plain_lower s : Shape.plain (lower s) = Shape.plain s.
Proof. unfold Shape.plain. now rewrite !lacks_lower by auto. Qed.

Lemma all_dots_lower s : Shape.all_dots (lower s) = Shape.all_dots s.
Proof.
  induction s as [|d r IH]; [reflexivity|].
  cbn [lower Shape.all_dots]. rewrite IH. f_equal.
  destruct d as [[] [] [] [] [] [] [] []]; reflexivity.
Qed.

Lemma tables_differ_at_txt :
  Receiver.extension_mapping = <[".txt" := "EMAIL"]> Orchestrator.extension_mapping.
Proof. vm_compute. reflexivity. Qed.

Lemma classify_by_table os mime_type f :
  mime_type = None \/ mime_type = Some "" \/
  mime_type = Some "application/octet-stream" ->
  truthy f = true -> startswith f "Email_" = false ->
  Orchestrator.get_generic_doc_type os mime_type (Some f) =
  default "OTHER"
    (Orchestrator.extension_mapping !! snd (splitext os (lower f))).
Proof.
  intros Hm Ht Hs. unfold Orchestrator.get_generic_doc_type.
  destruct Hm as [-> | [-> | ->]]; rewrite Ht, Hs; reflexivity.
Qed.

(** X12: The blob-name classifier answers PDF, WORD, IMAGE, EMAIL or OTHER, never
    TEXT.  On a filename that does not start with [Email_], the MIME-based
    classifier, given no, an empty or the generic MIME type, answers the
    same, except for the extension [.txt], where it answers TEXT and the
    blob-name classifier EMAIL. *)
Theorem classifiers_agree_but_txt os f :
  In (Receiver.get_generic_doc_type os f)
     ["PDF"; "WORD"; "IMAGE"; "EMAIL"; "OTHER"] /\
  (forall mime_type,
      mime_type = None \/ mime_type = Some "" \/
      mime_type = Some "application/octet-stream" ->
      truthy f = true -> startswith f "Email_" = false ->
      let ext := snd (splitext os (lower f)) in
      (ext = ".txt" ->
       Orchestrator.get_generic_doc_type os mime_type (Some f) = "TEXT" /\
       Receiver.get_generic_doc_type os f = "EMAIL") /\
      (ext <> ".txt" ->
       Orchestrator.get_generic_doc_type os mime_type (Some f) =
       Receiver.get_generic_doc_type os f)).
Proof.
  split.
  - unfold Receiver.get_generic_doc_type.
    destruct (Receiver.extension_mapping !! _) as [k|] eqn:E; cbn [default].
    + apply elem_of_list_to_map_2 in E.
      repeat (apply elem_of_cons in E as [E|E];
              [injection E as _ ->; simpl; tauto|]).
      inversion E.
    + simpl; tauto.
  - intros mime_type Hm Ht Hs. cbv zeta.
    rewrite (classify_by_table os mime_type f Hm Ht Hs).
    unfold Receiver.get_generic_doc_type. rewrite tables_differ_at_txt. split.
    + intros ->. now rewrite lookup_insert_eq.
    + intros Hne. now rewrite lookup_insert_ne by congruence.
Qed.

(** X13: A name without a dot has no extension: it is OTHER for the blob-name
    classifier, and for the MIME-based one when it has to go by the name. *)
Theorem name_without_dot_is_other os f :
  Shape.lacks "." f = true ->
  Receiver.get_generic_doc_type os f = "OTHER" /\
  (forall mime_type,
      mime_type = None \/ mime_type = Some "" \/
      mime_type = Some "application/octet-stream" ->
      truthy f = true -> startswith f "Email_" = false ->
      Orchestrator.get_generic_doc_type os mime_type (Some f) = "OTHER").
Proof.
  intros H.
  assert (He : snd (splitext os (lower f)) = "")
    by (rewrite splitext_no_dot; [reflexivity | rewrite lacks_lower; auto]).
  split.
  - unfold Receiver.get_generic_doc_type. now rewrite He.
  - intros mime_type Hm Ht Hs.
    now rewrite (classify_by_table os mime_type f Hm Ht Hs), He.
Qed.

Lemma receiver_by_extension os stem ext :
  Shape.plain stem = true -> Shape.plain ext = true ->
  Shape.lacks "." ext = true ->
  Receiver.get_generic_doc_type os (stem ++ "." ++ ext) =
  if Shape.all_dots stem then "OTHER"
  else default "OTHER" (Receiver.extension_mapping !! ("." ++ lower ext)).
Proof.
  intros Hs He Hd. unfold Receiver.get_generic_doc_type.
  change (stem ++ "." ++ ext) with (stem ++ String "." ext).
  rewrite lower_app. change (lower (String "." ext)) with (String "." (lower ext)).
  rewrite splitext_plain
    by (rewrite ?plain_lower, ?lacks_lower; auto).
  rewrite all_dots_lower. now destruct (Shape.all_dots stem).
Qed.

(** X14: On a name without path separators the blob-name classifier goes by what
    follows the last dot, whatever its letter case; a name whose last dot
    has only dots before it (as [.pdf]) has no extension and is OTHER. *)
Theorem receiver_goes_by_last_extension os stem ext :
  Shape.plain stem = true -> Shape.plain ext = true ->
  Shape.lacks "." ext = true ->
  Receiver.get_generic_doc_type os (stem ++ "." ++ ext) =
  if Shape.all_dots stem then "OTHER"
  else default "OTHER" (Receiver.extension_mapping !! ("." ++ lower ext)).
Proof.
  intros Hs He Hd. rewrite receiver_by_extension by assumption.
  destruct (Shape.all_dots stem); reflexivity.
Qed.

Lemma lacks_replace c s old new :
  c <> old -> c <> new ->
  Shape.lacks c (Upload.replace s old new) = Shape.lacks c s.
Proof.
  intros H1 H2. induction s as [|d r IH]; [reflexivity|].
  cbn [Upload.replace Shape.lacks]. rewrite IH. f_equal. f_equal.
  destruct (Ascii.eqb d old) eqn:E.
  - apply Ascii.eqb_eq in E. subst d.
    rewrite (proj2 (Ascii.eqb_neq new c)), (proj2 (Ascii.eqb_neq old c)); auto.
  - reflexivity.
Qed.

Lemma all_dots_replace s :
  Shape.all_dots (Upload.replace s " " "_") = Shape.all_dots s.
Proof.
  induction s as [|d r IH]; [reflexivity|].
  cbn [Upload.replace Shape.all_dots]. rewrite IH. f_equal.
  destruct d as [[] [] [] [] [] [] [] []]; reflexivity.
Qed.

(** X15: The file [upload_email] stores for a subject without path separators
    is ingested as EMAIL, unless the subject is empty or made of dots only:
    then the name has no extension and the document is OTHER, which no
    strategy reads.  The name holds no space. *)
Theorem email_file_kind os subject :
  Shape.plain subject = true ->
  Receiver.get_generic_doc_type os (Upload.email_file_name subject) =
    (if Shape.all_dots subject then "OTHER" else "EMAIL") /\
  Shape.lacks " " (Upload.email_file_name subject) = true.
Proof.
  intros Hp. unfold Upload.email_file_name. split.
  - change (Upload.replace subject " " "_" ++ ".txt")
      with (Upload.replace subject " " "_" ++ "." ++ "txt").
    rewrite receiver_by_extension, all_dots_replace; try reflexivity.
    unfold Shape.plain in *. now rewrite !lacks_replace by discriminate.
  - rewrite lacks_app. cbn. rewrite andb_true_r. clear Hp.
    induction subject as [|d r IH]; [reflexivity|].
    cbn [Upload.replace Shape.lacks]. rewrite IH.
    destruct d as [[] [] [] [] [] [] [] []]; reflexivity.
Qed.

End Extensions.

Section ExtensionSamples.
Import PyStr OsPath.

Lemma classifiers_agree_but_txt_witness :
  Orchestrator.get_generic_doc_type ntpath None (Some "notes.TXT") = "TEXT" /\
  Receiver.get_generic_doc_type ntpath "notes.TXT" = "EMAIL" /\
  Orchestrator.get_generic_doc_type ntpath
    (Some "application/octet-stream") (Some "scan.Jpeg") =
  Receiver.get_generic_doc_type ntpath "scan.Jpeg".
Proof.
  destruct (proj2 (classifiers_agree_but_txt ntpath "notes.TXT") None
              (or_introl eq_refl) eq_refl eq_refl) as [H1 _].
  destruct (H1 eq_refl) as [Ha Hb].
  destruct (proj2 (classifiers_agree_but_txt ntpath "scan.Jpeg")
              (Some "application/octet-stream")
              (or_intror (or_intror eq_refl)) eq_refl eq_refl) as [_ H2].
  split; [exact Ha | split; [exact Hb|]].
  apply H2. vm_compute. discriminate.
Defined.

Lemma name_without_dot_is_other_witness :
  Receiver.get_generic_doc_type posixpath "README" = "OTHER".
Proof. apply name_without_dot_is_other. reflexivity. Defined.

Lemma receiver_goes_by_last_extension_witness :
  Receiver.get_generic_doc_type posixpath "Annual Report.v2.PDF" = "PDF" /\
  Receiver.get_generic_doc_type posixpath ".pdf" = "OTHER".
Proof.
  split.
  - change "Annual Report.v2.PDF" with ("Annual Report.v2" ++ "." ++ "PDF").
    rewrite receiver_goes_by_last_extension; reflexivity.
  - change ".pdf" with ("" ++ "." ++ "pdf").
    rewrite receiver_goes_by_last_extension; reflexivity.
Defined.

Lemma email_file_kind_witness :
  Receiver.get_generic_doc_type posixpath (Upload.email_file_name "Test Email 2") =
    "EMAIL" /\
  Receiver.get_generic_doc_type posixpath (Upload.email_file_name "") = "OTHER".
Proof.
  split.
  - apply (proj1 (email_file_kind posixpath "Test Email 2" eq_refl)).
  - apply (proj1 (email_file_kind posixpath "" eq_refl)).
Defined.

End ExtensionSamples.

(** ** The strategies, continued *)

Section StrategiesMore.
Import PyStr Extractor.

Lemma lstrip_idem s : lstrip (lstrip s) = lstrip s.
Proof.
  induction s as [|c r IH]; [reflexivity|].
  cbn [lstrip]. destruct (is_space c) eqn:E; [exact IH|].
  cbn [lstrip]. now rewrite E.
Qed.

Lemma rstrip_idem s : rstrip (rstrip s) = rstrip s.
Proof.
  induction s as [|c r IH]; [reflexivity|].
  rewrite rstrip_cons.
  destruct (is_space c && negb (truthy (rstrip r))) eqn:E; [reflexivity|].
  now rewrite rstrip_cons, IH, E.
Qed.

Lemma rstrip_lstrip_fixed t : rstrip t = t -> rstrip (lstrip t) = lstrip t.
Proof.
  induction t as [|c r IH]; [reflexivity|].
  rewrite rstrip_cons. cbn [lstrip].
  destruct (is_space c) eqn:Ec.
  - destruct (truthy (rstrip r)); cbn [andb negb]; [|discriminate].
    intros [= H]. now apply IH.
  - cbn [andb]. intros [= H]. now rewrite rstrip_cons, Ec, H.
Qed.

Lemma strip_idem s : strip (strip s) = strip s.
Proof.
  unfold strip.
  now rewrite (rstrip_lstrip_fixed (rstrip s) (rstrip_idem s)), lstrip_idem.
Qed.

Lemma truthy_lstrip s : truthy (lstrip s) = Shape.visible s.
Proof.
  induction s as [|c r IH]; [reflexivity|].
  cbn [lstrip Shape.visible]. now destruct (is_space c).
Qed.

Lemma truthy_rstrip s : truthy (rstrip s) = Shape.visible s.
Proof.
  induction s as [|c r IH]; [reflexivity|].
  rewrite rstrip_cons. cbn [Shape.visible]. rewrite IH.
  now destruct (is_space c), (Shape.visible r).
Qed.

Lemma visible_rstrip s : Shape.visible (rstrip s) = Shape.visible s.
Proof.
  induction s as [|c r IH]; [reflexivity|].
  rewrite rstrip_cons, truthy_rstrip. cbn [Shape.visible].
  destruct (is_space c) eqn:Ec, (Shape.visible r) eqn:Er; cbn;
    rewrite ?Ec, ?IH; reflexivity.
Qed.

Lemma truthy_strip s : truthy (strip s) = Shape.visible s.
Proof. unfold strip. now rewrite truthy_lstrip, visible_rstrip. Qed.

Lemma visible_app s t :
  Shape.visible (s ++ t) = Shape.visible s || Shape.visible t.
Proof.
  induction s as [|c r IH]; [reflexivity|].
  change (String c r ++ t) with (String c (r ++ t)). cbn [Shape.visible].
  now rewrite IH, orb_assoc.
Qed.

Lemma visible_contribution page :
  Shape.visible (page_contribution page) = Shape.page_visible page.
Proof.
  destruct page as [t|x]; [|reflexivity].
  unfold page_contribution, pdf_page. rewrite truthy_strip.
  cbn [Shape.page_visible].
  destruct (Shape.visible t) eqn:E; [|reflexivity].
  rewrite append_empty_l, visible_app, E. reflexivity.
Qed.

Lemma visible_pages pages :
  Shape.visible (foldr append "" (map page_contribution pages)) =
  existsb Shape.page_visible pages.
Proof.
  induction pages as [|page rest IH]; [reflexivity|].
  cbn [map foldr existsb]. now rewrite visible_app, visible_contribution, IH.
Qed.

(** X10: The text of a PDF has no white space at either end, and it is empty
    exactly when no page both reads and shows a character that is not
    white space. *)
Theorem pdf_text_stripped fs file_path :
  exists text,
    extract_text_from_pdf fs file_path = Ok text /\
    strip text = text /\
    (forall f pages,
        fs !! file_path = Some f -> pdf f = Ok pages ->
        truthy text = existsb Shape.page_visible pages).
Proof.
  unfold extract_text_from_pdf, open_.
  destruct (fs !! file_path) as [f|].
  - destruct (pdf f) as [pages|x] eqn:E.
    + eexists. split; [reflexivity|]. rewrite pdf_pages_fold, append_empty_l.
      split; [apply strip_idem|].
      intros f' pages' [= <-]. rewrite E. intros [= <-].
      now rewrite truthy_strip, visible_pages.
    + exists "". split; [reflexivity|]. split; [reflexivity|].
      intros f' pages' [= <-]. rewrite E. discriminate.
  - exists "". split; [reflexivity|]. split; [reflexivity|]. discriminate.
Qed.

Lemma word_fold paragraphs : forall text,
  fold_left (fun text paragraph => text ++ paragraph) paragraphs text =
  text ++ foldr append "" paragraphs.
Proof.
  induction paragraphs as [|p rest IH]; intros text; cbn [fold_left foldr].
  - now rewrite append_empty_r.
  - now rewrite IH, append_assoc.
Qed.

(** X11: The text of a Word document is its paragraphs' texts one after the
    other with nothing between or around them: the text of two runs of
    paragraphs is the text of the first followed by that of the second. *)
Theorem word_text_concatenates fs file_path f first second :
  fs !! file_path = Some f -> docx f = Ok (first ++ second)%list ->
  extract_text_from_word fs file_path =
  Ok (foldr append "" first ++ foldr append "" second).
Proof.
  intros Hf Hd. unfold extract_text_from_word, open_. rewrite Hf, Hd.
  rewrite word_fold, append_empty_l, foldr_app. f_equal. clear Hd.
  induction first as [|p rest IH]; [reflexivity|].
  cbn [foldr]. now rewrite IH, append_assoc.
Qed.

End StrategiesMore.

Section StrategySamples.
Import Extractor.

Lemma word_text_concatenates_witness :
  let f := {| text_mode := Raise (Exception "codec");
              pdf := Raise (Exception "not a PDF");
              docx := Ok ["Dear "; "Sir"; ","];
              ocr := Raise (Exception "cannot identify image file") |} in
  extract_text_from_word {[ "a.docx" := f ]} "a.docx" = Ok "Dear Sir,".
Proof.
  intros f.
  apply (word_text_concatenates {[ "a.docx" := f ]} "a.docx" f ["Dear "] ["Sir"; ","]);
    reflexivity.
Defined.

End StrategySamples.

(** ** The upload endpoints *)

Section Uploads.
Import PyStr Upload.

Variable e : env.
Variable sid : string.

Lemma upload_documents_loop_entries files : forall c acc,
  exists rs,
    fst (upload_documents_loop e sid files c acc) = (acc ++ rs)%list /\
    map item_name rs = map filename files /\
    map item_status rs =
      map (fun i => if is_ok (upload_blob e (uploads c + i))
                    then "success" else "error")
        (seq 0 (List.length files)) /\
    uploads (snd (upload_documents_loop e sid files c acc)) =
      uploads c + List.length files.
Proof.
  induction files as [|file rest IH]; intros c acc.
  - exists []. cbn [upload_documents_loop fst snd map seq List.length].
    rewrite app_nil_r. split; [reflexivity|]. split; [reflexivity|].
    split; [reflexivity | lia].
  - cbn [upload_documents_loop]. unfold upload_file.
    destruct (upload_blob e (uploads c)) as [[]|x] eqn:E;
      match goal with
      | |- context [upload_documents_loop e sid rest ?c1 ?acc1] =>
          destruct (IH c1 acc1) as (rs & H1 & H2 & H3 & H4)
      end;
      eexists (_ :: rs); rewrite H1, H4, <- app_assoc; cbn [uploads];
      (split; [reflexivity|]); cbn [map item_name item_status List.length seq];
      rewrite H2, H3, Nat.add_0_r, E, <- seq_shift, map_map; cbn [is_ok uploads];
      (split; [reflexivity|]);
      (split; [f_equal; apply map_ext; intros i;
               now replace (S (uploads c) + i) with (uploads c + S i) by lia
              | lia]).
Qed.

(** X19: [upload_documents] answers for every file, in order and under its
    name: [success] where the upload worked and [error] where it raised,
    the failure of one file leaving the others their own outcome. *)
Theorem upload_documents_entries files c :
  let r := upload_documents e sid files c in
  fst (fst r) = "Processed " ++ pretty (List.length files) ++ " documents" /\
  map item_name (snd (fst r)) = map filename files /\
  map item_status (snd (fst r)) =
    map (fun i => if is_ok (upload_blob e (uploads c + i))
                  then "success" else "error")
      (seq 0 (List.length files)) /\
  uploads (snd r) = uploads c + List.length files.
Proof.
  cbv zeta. unfold upload_documents.
  destruct (upload_documents_loop_entries files c []) as (rs & H1 & H2 & H3 & H4).
  destruct (upload_documents_loop e sid files c []) as [results c'].
  cbn [fst snd app] in *. subst results. auto.
Qed.

Lemma startswith_app p x : startswith (p ++ x) p = true.
Proof.
  induction p as [|c p IH]; [reflexivity|].
  change (String c p ++ x) with (String c (p ++ x)). cbn [startswith].
  now rewrite Ascii.eqb_refl, IH.
Qed.

Lemma upload_documents_loop_container files : forall c acc name,
  (forall n, upload_blob e n = Ok tt) ->
  container (snd (upload_documents_loop e sid files c acc))
    !! (sid ++ "/" ++ name) =
  match Shape.last_named name files with
  | Some f => Some (content f)
  | None => container c !! (sid ++ "/" ++ name)
  end.
Proof.
  induction files as [|file rest IH]; intros c acc name Hok; [reflexivity|].
  cbn [upload_documents_loop]. unfold upload_file. rewrite Hok.
  rewrite IH by exact Hok. unfold Shape.last_named. cbn [rev container].
  destruct (List.find _ (rev rest)) as [g|] eqn:E.
  - now rewrite (find_app_Some _ _ _ _ E).
  - rewrite (find_app_None _ _ _ E). cbn [List.find].
    destruct (String.eqb (filename file) name) eqn:En.
    + apply String.eqb_eq in En. subst name. apply lookup_insert_eq.
    + apply String.eqb_neq in En. apply lookup_insert_ne.
      intros H. apply String.app_inj in H. apply En.
      now injection H.
Qed.

Lemma upload_documents_loop_outside files : forall c acc k,
  startswith k (sid ++ "/") = false ->
  container (snd (upload_documents_loop e sid files c acc)) !! k =
  container c !! k.
Proof.
  induction files as [|file rest IH]; intros c acc k Hk; [reflexivity|].
  cbn [upload_documents_loop]. unfold upload_file.
  destruct (upload_blob e (uploads c)); rewrite IH by exact Hk; cbn [container];
    [|reflexivity].
  apply lookup_insert_ne. intros <-.
  rewrite <- append_assoc, startswith_app in Hk. discriminate.
Qed.

(** X20: Uploads overwrite: when every upload works, the blob of a name holds
    the bytes of the last file of the request with that name, and is as
    before if there is none; blobs outside the session are never touched,
    whatever fails. *)
Theorem upload_documents_last_wins files c :
  ((forall n, upload_blob e n = Ok tt) ->
   forall name,
     container (snd (upload_documents e sid files c)) !! (sid ++ "/" ++ name) =
     match Shape.last_named name files with
     | Some f => Some (content f)
     | None => container c !! (sid ++ "/" ++ name)
     end) /\
  (forall k,
      startswith k (sid ++ "/") = false ->
      container (snd (upload_documents e sid files c)) !! k = container c !! k).
Proof.
  unfold upload_documents.
  pose proof (upload_documents_loop_container files c []) as H1.
  pose proof (upload_documents_loop_outside files c []) as H2.
  destruct (upload_documents_loop e sid files c []) as [results c'].
  cbn [snd] in *. split; [intros Hok name; now apply H1 | exact H2].
Qed.

End Uploads.

Section UploadEmail.
Import PyStr Upload.

Variable e : env.
Variable os : os_path.
Variable sid : string.

(** What later emails leave alone: the absence of a temporary file and the
    presence of a blob. *)
Lemma upload_email_loop_keeps emails : forall st acc,
  (forall k, tmp st !! k = None ->
             tmp (snd (upload_email_loop e os sid emails st acc)) !! k = None) /\
  (forall k, is_Some (container (account st) !! k) ->
             is_Some (container (account (snd (upload_email_loop e os sid emails st acc)))
                        !! k)).
Proof.
  induction emails as [|m rest IH]; intros st acc; [split; auto|].
  cbn [upload_email_loop]. cbv zeta. unfold upload_file.
  set (name := replace (email_subject m) " " "_" ++ ".txt").
  assert (Ht : forall k v, tmp st !! k = None ->
                 delete name (<[name := v]> (tmp st)) !! k = None).
  { intros k v Hk. destruct (decide (name = k)) as [->|Hne].
    - apply lookup_delete_eq.
    - now rewrite lookup_delete_ne, lookup_insert_ne. }
  destruct (open_w e name).
  - destruct (upload_blob e (uploads (account st))).
    + match goal with
      | |- context [upload_email_loop e os sid rest ?st1 ?acc1] =>
          destruct (IH st1 acc1) as [I1 I2]
      end.
      split.
      * intros k Hk. apply I1. cbn [tmp]. now apply Ht.
      * intros k Hk. apply I2. cbn [account container].
        apply lookup_insert_is_Some.
        destruct (decide (sid ++ "/" ++ name = k)); [now left | now right].
    + cbn [snd tmp account container]. split; [intros k Hk; now apply Ht | auto].
  - cbn [snd tmp account]. split; [|auto].
    intros k Hk. destruct (decide (name = k)) as [->|Hne].
    + apply lookup_delete_eq.
    + now rewrite lookup_delete_ne.
Qed.

Lemma upload_email_loop_outcome emails : forall st acc,
  match upload_email_loop e os sid emails st acc with
  | (Returned result, st') =>
      exists rs,
        result = (acc ++ rs)%list /\
        map item_name rs =
          map (fun m => email_file_name (email_subject m)) emails /\
        Forall (fun r => item_status r = "success") rs /\
        Forall (fun m =>
                  tmp st' !! email_file_name (email_subject m) = None /\
                  is_Some (container (account st')
                             !! (sid ++ "/" ++ email_file_name (email_subject m))))
          emails /\
        uploads (account st') = uploads (account st) + List.length emails
  | (HTTPException code detail, st') =>
      code = 500 /\
      ((exists n, uploads (account st) <= n /\
                  upload_blob e n = Raise (Exception detail)) \/
       (exists m, m ∈ emails /\
                  open_w e (email_file_name (email_subject m)) =
                  Raise (Exception detail)))
  end.
Proof.
  induction emails as [|m rest IH]; intros st acc.
  - cbn [upload_email_loop]. exists []. rewrite app_nil_r.
    repeat split; try constructor. cbn. lia.
  - cbn [upload_email_loop]. cbv zeta. unfold upload_file.
    fold (email_file_name (email_subject m)).
    set (name := email_file_name (email_subject m)).
    destruct (open_w e name) as [[]|x] eqn:Eo.
    + destruct (upload_blob e (uploads (account st))) as [[]|x] eqn:E.
      * match goal with
        | |- context [upload_email_loop e os sid rest ?st1 ?acc1] =>
            specialize (IH st1 acc1);
            pose proof (upload_email_loop_keeps rest st1 acc1) as [K1 K2];
            destruct (upload_email_loop e os sid rest st1 acc1)
              as [[result|code detail] st']
        end.
        -- destruct IH as (rs & -> & Hn & Hs & Hf & Hu). cbn [snd] in K1, K2.
           eexists (_ :: rs). rewrite <- app_assoc.
           split; [reflexivity|]. cbn [map item_name]. rewrite Hn.
           split; [reflexivity|]. split; [constructor; [reflexivity | exact Hs]|].
           split; [|cbn [account uploads List.length] in *; lia].
           constructor; [|exact Hf]. split.
           ++ apply K1. cbn [tmp]. apply lookup_delete_eq.
           ++ apply K2. cbn [account container]. rewrite lookup_insert_eq. eauto.
        -- destruct IH as (-> & [(n & Hn & Hr)|(m' & Hm & Hr)]);
             (split; [reflexivity|]).
           ++ left. exists n. cbn [account uploads] in Hn. split; [lia | exact Hr].
           ++ right. exists m'. split; [now constructor | exact Hr].
      * split; [reflexivity|]. left. exists (uploads (account st)).
        destruct x as [msg]. split; [lia | exact E].
    + split; [reflexivity|]. right. exists m. destruct x as [msg].
      split; [constructor | exact Eo].
Qed.

(** X21: [upload_email] stores all the emails or answers with an error: it
    returns one [success] entry per email, under the name made from the
    subject, each with its blob in the container; or it answers with status
    500 and the message of the exception raised by an upload or by the
    opening of an email's temporary file.  Either way it leaves no file of
    its own in the temporary directory. *)
Theorem upload_email_all_or_error emails st :
  let r := upload_email e os sid emails st in
  (forall k, tmp st !! k = None -> tmp (snd r) !! k = None) /\
  match fst r with
  | Returned (msg, result) =>
      msg = "Processed " ++ pretty (List.length emails) ++ " emails" /\
      map item_name result =
        map (fun m => email_file_name (email_subject m)) emails /\
      Forall (fun r => item_status r = "success") result /\
      Forall (fun m =>
                tmp (snd r) !! email_file_name (email_subject m) = None /\
                is_Some (container (account (snd r))
                           !! (sid ++ "/" ++ email_file_name (email_subject m))))
        emails
  | HTTPException code detail =>
      code = 500 /\
      ((exists n, upload_blob e n = Raise (Exception detail)) \/
       (exists m, m ∈ emails /\
                  open_w e (email_file_name (email_subject m)) =
                  Raise (Exception detail)))
  end.
Proof.
  cbv zeta. unfold upload_email.
  pose proof (upload_email_loop_outcome emails st []) as H.
  pose proof (proj1 (upload_email_loop_keeps emails st [])) as K.
  destruct (upload_email_loop e os sid emails st []) as [[result|code detail] st'];
    cbn [fst snd] in *; (split; [exact K|]).
  - destruct H as (rs & -> & Hn & Hs & Hf & _). cbn [app]. auto.
  - destruct H as (-> & [(n & _ & Hr)|Hr]); eauto.
Qed.

(** An email whose temporary file cannot be opened ends the request before
    any upload of it: the answer is 500 with the message of that error. *)
Lemma upload_email_open_fails m rest st x :
  open_w e (email_file_name (email_subject m)) = Raise x ->
  upload_email e os sid (m :: rest) st =
  (HTTPException 500 (str_exn x),
   {| tmp := delete (email_file_name (email_subject m)) (tmp st);
      account := account st |}).
Proof.
  intros Ho. unfold upload_email. cbn [upload_email_loop]. cbv zeta.
  fold (email_file_name (email_subject m)). now rewrite Ho.
Qed.

Lemma utf8_ascii s : Shape.ascii_only s = true -> utf8 s = s.
Proof.
  induction s as [|c r IH]; [reflexivity|].
  cbn [Shape.ascii_only utf8]. intros H. apply andb_true_iff in H as [Hc Hr].
  now rewrite Hc, IH.
Qed.

Lemma upload_email_loop_app l1 l2 : forall st acc,
  upload_email_loop e os sid (l1 ++ l2)%list st acc =
  match upload_email_loop e os sid l1 st acc with
  | (Returned result, st1) => upload_email_loop e os sid l2 st1 result
  | (HTTPException code detail, st1) => (HTTPException code detail, st1)
  end.
Proof.
  induction l1 as [|m rest IH]; intros st acc; [reflexivity|].
  cbn [app upload_email_loop]. cbv zeta.
  destruct (open_w e _); [|reflexivity].
  destruct (upload_file e _ _ sid (account st)) as [[url|x] c']; [apply IH|reflexivity].
Qed.

(** X22: What is stored for the last email of a request that returns: the UTF-8
    bytes of its body as a text-mode file holds it (on Windows with every
    newline preceded by a carriage return); away from Windows, for a body
    of characters below U+0080, that is the body itself. *)
Theorem upload_email_stores_body before m st msg result :
  fst (upload_email e os sid (before ++ [m])%list st) = Returned (msg, result) ->
  container (account (snd (upload_email e os sid (before ++ [m])%list st)))
    !! (sid ++ "/" ++ email_file_name (email_subject m)) =
    Some (utf8 (written os (email_body m))) /\
  (os = posixpath -> Shape.ascii_only (email_body m) = true ->
   utf8 (written os (email_body m)) = email_body m).
Proof.
  unfold upload_email. rewrite upload_email_loop_app.
  destruct (upload_email_loop e os sid before st []) as [[r1|code detail] st1];
    [|discriminate].
  cbn [upload_email_loop]. cbv zeta. unfold upload_file.
  fold (email_file_name (email_subject m)).
  destruct (open_w e _); [|discriminate].
  destruct (upload_blob e (uploads (account st1))); [|discriminate].
  intros _. cbn [fst snd account container].
  split; [now rewrite !lookup_insert_eq|].
  intros ->. apply utf8_ascii.
Qed.

End UploadEmail.

Section MoreSamples.
Import PyStr OsPath.

Lemma pdf_text_stripped_witness :
  Extractor.extract_text_from_pdf {[ "invoice.pdf" := Sample.scan ]} "invoice.pdf" =
    Ok "Invoice 42" /\
  truthy "Invoice 42" = existsb Shape.page_visible
                          [Raise (Exception "corrupt page"); Ok "Invoice 42"].
Proof.
  destruct (pdf_text_stripped {[ "invoice.pdf" := Sample.scan ]} "invoice.pdf")
    as (text & H1 & _ & H3).
  assert (Ht : text = "Invoice 42") by (vm_compute in H1; congruence).
  subst text. split; [exact H1|].
  apply (H3 Sample.scan); reflexivity.
Defined.

Lemma ingestion_only_appends_witness :
  exists new,
    snd (Receiver.process_session_documents Sample.storage posixpath "s"
           [Sample.invoice]) = ([Sample.invoice] ++ new)%list /\
    List.length new = 2.
Proof.
  destruct (ingestion_only_appends posixpath "s" Sample.storage [Sample.invoice])
    as (new & H1 & _ & _ & H4).
  exists new. split; [exact H1|].
  specialize (H4 _ _ eq_refl). vm_compute in H4. now symmetry.
Defined.

Lemma ingestion_one_entry_per_blob_witness :
  exists results,
    fst (Receiver.process_session_documents Sample.storage posixpath "s" []) =
      Ok ("Processed 3 documents for session s", results) /\
    List.length results = 3.
Proof.
  destruct (ingestion_one_entry_per_blob posixpath "s" Sample.storage []
              ["s/invoice.pdf"; "s/Email_1.txt"; "s/data.bin"] eq_refl)
    as (results & H1 & H2 & _).
  exists results. split; [exact H1 | exact H2].
Defined.

Lemma ingestion_keeps_keys_distinct_witness :
  NoDup (map Shape.key
           (snd (Receiver.process_session_documents Sample.storage posixpath "s"
                   [Sample.invoice]))).
Proof.
  apply ingestion_keeps_keys_distinct. cbn. apply NoDup_singleton.
Defined.

Lemma upload_documents_last_wins_witness :
  Upload.container
    (snd (Upload.upload_documents SampleUpload.steady "s" SampleUpload.files
            (Upload.account SampleUpload.fresh))) !! "s/a.txt" = Some "two" /\
  Upload.container
    (snd (Upload.upload_documents SampleUpload.flaky "s" SampleUpload.files
            (Upload.account SampleUpload.fresh))) !! "t/a.txt" = None.
Proof.
  split.
  - apply (proj1 (upload_documents_last_wins SampleUpload.steady "s"
                    SampleUpload.files (Upload.account SampleUpload.fresh))
             (fun _ => eq_refl) "a.txt").
  - apply (proj2 (upload_documents_last_wins SampleUpload.flaky "s"
                    SampleUpload.files (Upload.account SampleUpload.fresh))
             "t/a.txt" eq_refl).
Defined.

Lemma upload_email_all_or_error_witness :
  Upload.tmp (snd (Upload.upload_email SampleUpload.flaky posixpath "s"
                     SampleUpload.emails SampleUpload.fresh))
    !! "Test_Email_2.txt" = None /\
  ((exists n, Upload.upload_blob SampleUpload.steady n =
              Raise (Exception "No such file or directory")) \/
   (exists m, m ∈ [SampleUpload.quarterly] /\
              Upload.open_w SampleUpload.steady
                (Upload.email_file_name (Upload.email_subject m)) =
              Raise (Exception "No such file or directory"))).
Proof.
  split.
  - apply (proj1 (upload_email_all_or_error SampleUpload.flaky posixpath "s"
                    SampleUpload.emails SampleUpload.fresh)).
    reflexivity.
  - pose proof (proj2 (upload_email_all_or_error SampleUpload.steady posixpath "s"
                         [SampleUpload.quarterly] SampleUpload.fresh)) as H.
    exact (proj2 H).
Defined.

Lemma upload_email_stores_body_witness :
  Upload.container
    (Upload.account
       (snd (Upload.upload_email SampleUpload.steady posixpath "s" SampleUpload.emails
               SampleUpload.fresh))) !! "s/Test_Email_2.txt" =
  Some "This is a test email 2".
Proof.
  destruct (upload_email_stores_body SampleUpload.steady posixpath "s"
              [{| Upload.sender_email_id := "ann@example.org";
                  Upload.email_subject := "Test Email";
                  Upload.email_body := "This is a test email" |}]
              {| Upload.sender_email_id := "ann@example.org";
                 Upload.email_subject := "Test Email 2";
                 Upload.email_body := "This is a test email 2" |}
              SampleUpload.fresh
              "Processed 2 emails"
              [Upload.Uploaded "Test_Email.txt" "success"
                 "https://account.blob/s/Test_Email.txt";
               Upload.Uploaded "Test_Email_2.txt" "success"
                 "https://account.blob/s/Test_Email_2.txt"])
    as [H1 H2]; [vm_compute; reflexivity|].
  rewrite (H2 eq_refl eq_refl) in H1. exact H1.
Defined.

End MoreSamples.
